(** * VPC flow-log processor: a shallow embedding of [main.py]

    The program reads two reference tables (protocol numbers and a tag
    lookup table), walks over the records of a flow log, and counts the
    records per tag and per (destination port, protocol name) pair.

    Python values are modelled as follows.
    - [str] is [string]; a character is a code point in U+0000..U+00FF, and
      [str.isspace]/[str.lower] are Python's Unicode tables restricted to
      that range.
    - [dict] is stdpp's [gmap]; [int] is [Z].
    - A raised exception is the [Raise] constructor of [result]. *)

From Stdlib Require Import Ascii String ZArith Lia.
From stdpp Require Import gmap strings list fin_maps pretty.

Local Open Scope string_scope.
Local Open Scope Z_scope.

(** ** Python string primitives *)

Module PyStr.

(** [str.isspace] on one character: TAB..CR, FS..US, SPACE, NEL, NBSP. *)
Definition isspace (c : ascii) : bool :=
  let n := N_of_ascii c in
  ((9 <=? n) && (n <=? 13) || (28 <=? n) && (n <=? 32)
   || (n =? 133) || (n =? 160))%N.

(** [str.lower] on one character: A..Z and the Latin-1 capitals
    U+00C0..U+00DE (the multiplication sign U+00D7 has no case). *)
Definition lower_char (c : ascii) : ascii :=
  let n := N_of_ascii c in
  if ((65 <=? n) && (n <=? 90) || (192 <=? n) && (n <=? 214)
      || (216 <=? n) && (n <=? 222))%N
  then ascii_of_N (n + 32) else c.

(** [s.lower()] *)
Fixpoint lower (s : string) : string :=
  match s with
  | EmptyString => EmptyString
  | String c s' => String (lower_char c) (lower s')
  end.

(** Truth value of a [str]: only the empty string is falsy. *)
Definition truthy (s : string) : bool :=
  match s with
  | EmptyString => false
  | String _ _ => true
  end.

(** [s.lstrip()] *)
Fixpoint lstrip (s : string) : string :=
  match s with
  | EmptyString => EmptyString
  | String c s' => if isspace c then lstrip s' else s
  end.

(** [s.rstrip()] *)
Fixpoint rstrip (s : string) : string :=
  match s with
  | EmptyString => EmptyString
  | String c s' =>
      match rstrip s' with
      | EmptyString => if isspace c then EmptyString else String c EmptyString
      | r => String c r
      end
  end.

(** [s.strip()] *)
Definition strip (s : string) : string := rstrip (lstrip s).

(** The token being scanned is emitted when it is non-empty. *)
Definition flush (tok : string) : list string :=
  if truthy tok then [tok] else [].

(** The scanning loop of [s.split()]: [tok] is the run of non-space
    characters read since the last white space. *)
Fixpoint split_acc (tok : string) (s : string) : list string :=
  match s with
  | EmptyString => flush tok
  | String c s' =>
      if isspace c then flush tok ++ split_acc EmptyString s'
      else split_acc (tok +:+ String c EmptyString) s'
  end.

(** [s.split()] *)
Definition split (s : string) : list string := split_acc EmptyString s.

(** Every character of [s] satisfies [p]. *)
Fixpoint all_chars (p : ascii -> bool) (s : string) : bool :=
  match s with
  | EmptyString => true
  | String c s' => p c && all_chars p s'
  end.

(** A string without any white-space character. *)
Definition spaceless (s : string) : bool :=
  all_chars (fun c => negb (isspace c)) s.

(** A string that does not start with white space. *)
Definition lstripped (s : string) : bool :=
  match s with
  | EmptyString => true
  | String c _ => negb (isspace c)
  end.

(** A token of [split]: non-empty and free of white space. *)
Definition token (t : string) : Prop :=
  truthy t = true /\ spaceless t = true.

End PyStr.

Import PyStr.

(** ** Exceptions *)

(** The two exceptions the record path can raise: a subscript out of range,
    and the unpacking of [None] into two names. *)
Inductive exn : Type :=
  | IndexError
  | TypeError.

Inductive result (A : Type) : Type :=
  | Ok (a : A)
  | Raise (e : exn).

Arguments Ok {A} a.
Arguments Raise {A} e.

#[global] Instance result_bind : MBind result :=
  fun A B (k : A -> result B) (r : result A) =>
    match r with
    | Ok a => k a
    | Raise e => Raise e
    end.

(** ** Reference tables *)

(** One row of [lookup_table.csv] as [csv.DictReader] yields it. *)
Record lookup_row : Type := LookupRow {
  row_dstport : string;
  row_protocol : string;
  row_tag : string
}.

(** One row of [protocol_numbers.csv] as [csv.DictReader] yields it. *)
Record protocol_row : Type := ProtocolRow {
  row_Decimal : string;
  row_Keyword : string
}.

(** The f-string ["{dstport}:{protocol}"]. *)
Definition lookup_key (dstport protocol : string) : string :=
  dstport +:+ ":" +:+ protocol.

Definition load_lookup_table (rows : list lookup_row) : gmap string string :=
  fold_left
    (fun lookup row =>
       let dstport := strip (row_dstport row) in
       let protocol := lower (strip (row_protocol row)) in
       let key := lookup_key dstport protocol in
       <[key := lower (strip (row_tag row))]> lookup)
    rows ∅.

(** [lookup_table.get(key) or "Untagged"] *)
Definition get_tag_from_lookup
    (lookup_table : gmap string string) (dstport protocol : string) : string :=
  let key := lookup_key dstport (lower protocol) in
  match lookup_table !! key with
  | Some tag => if truthy tag then tag else "Untagged"
  | None => "Untagged"
  end.

Definition load_protocols_from_csv (rows : list protocol_row)
    : gmap string string :=
  fold_left
    (fun protocols row =>
       let decimal := row_Decimal row in
       let keyword := row_Keyword row in
       <[decimal := keyword]> protocols)
    rows ∅.

(** [protocols.get(protocol_number, "Unassigned")] *)
Definition get_protcol_from_protocol_number
    (protocol_number : string) (protocols : gmap string string) : string :=
  default "Unassigned" (protocols !! protocol_number).

(** ** Record extraction *)

(** A record handed to extraction: a list of fields (a row of [csv.reader])
    or a line of text still to be split. *)
Inductive raw_row : Type :=
  | ListRow (fields : list string)
  | StrRow (line : string).

(** [fields[i]] *)
Definition subscript (fields : list string) (i : nat) : result string :=
  match fields !! i with
  | Some f => Ok f
  | None => Raise IndexError
  end.

(** [fields = row], or [row.split()] when [row] is not a list. *)
Definition fields_of (row : raw_row) : list string :=
  match row with
  | ListRow l => l
  | StrRow s => split s
  end.

Definition extract_dstport_protocol (row : raw_row)
    : result (option (string * string)) :=
  let fields := fields_of row in
  f5 ← subscript fields 5;
  let dstport := strip f5 in
  f7 ← subscript fields 7;
  let protocol := strip f7 in
  if negb (truthy dstport) || negb (truthy protocol) then Ok None
  else Ok (Some (dstport, protocol)).

(** ** Aggregation *)

(** The two dictionaries built by the run. *)
Abbreviation tag_counts_t := (gmap string Z).
Abbreviation port_protocol_counts_t := (gmap (string * string) Z).
Abbreviation counters := (tag_counts_t * port_protocol_counts_t)%type.

(** [d[k] = d.get(k, 0) + 1] *)
Definition bump `{Countable K} (k : K) (d : gmap K Z) : gmap K Z :=
  <[k := default 0 (d !! k) + 1]> d.

(** [sum(d.values())] *)
Definition sum_values `{Countable K} (d : gmap K Z) : Z :=
  map_fold (fun _ v acc => v + acc) 0 d.

Section Pipeline.

(** The module-level tables, loaded once before any record is read. *)
Variable protocols : gmap string string.
Variable lookup_table : gmap string string.

Definition process_row (row : raw_row) (st : counters) : result counters :=
  let '(tag_counts, port_protocol_counts) := st in
  r ← extract_dstport_protocol row;
  match r with
  | None => Raise TypeError
  | Some (dstport, protocol_number) =>
      if truthy dstport && truthy protocol_number then
        let protocol_name :=
          get_protcol_from_protocol_number protocol_number protocols in
        let tag := get_tag_from_lookup lookup_table dstport protocol_name in
        let tag_counts := bump tag tag_counts in
        let port_protocol_identifier := (dstport, lower protocol_name) in
        let port_protocol_counts :=
          bump port_protocol_identifier port_protocol_counts in
        Ok (tag_counts, port_protocol_counts)
      else Ok (tag_counts, port_protocol_counts)
  end.

(** Body of the loop over the rows of a [.csv] flow log. *)
Definition csv_step (row : list string) (st : counters) : result counters :=
  if negb (length row =? 14)%nat then Ok st
  else process_row (ListRow row) st.

(** Body of the loop over the lines of a text flow log. *)
Definition text_step (line : string) (st : counters) : result counters :=
  let row := strip line in
  if negb (truthy row) || negb (length (split row) =? 14)%nat then Ok st
  else process_row (StrRow row) st.

(** A [for] loop whose body may raise. *)
Fixpoint for_each {A : Type} (body : A -> counters -> result counters)
    (xs : list A) (st : counters) : result counters :=
  match xs with
  | [] => Ok st
  | x :: xs' => st' ← body x st; for_each body xs' st'
  end.

(** The flow log as the run reads it: [filename.endswith('.csv')] selects
    the rows of [csv.reader], any other name the lines of the file. *)
Inductive flow_log : Type :=
  | CsvLog (rows : list (list string))
  | TextLog (lines : list string).

Definition process_flow_log_file (log : flow_log) : result counters :=
  match log with
  | CsvLog rows => for_each csv_step rows (∅, ∅)
  | TextLog lines => for_each text_step lines (∅, ∅)
  end.

End Pipeline.

(** ** Vocabulary of the specification *)

(** Number of fields of a record as the pipeline counts them. *)
Definition csv_field_count (row : list string) : nat := length row.
Definition text_field_count (line : string) : nat := length (split line).

(** A valid record: 14 fields, both required fields non-empty once trimmed. *)
Definition required_fields_present (fields : list string) : bool :=
  match fields !! 5%nat, fields !! 7%nat with
  | Some f5, Some f7 => truthy (strip f5) && truthy (strip f7)
  | _, _ => false
  end.

Definition valid_fields (fields : list string) : bool :=
  (length fields =? 14)%nat && required_fields_present fields.

Definition valid_csv_row (row : list string) : bool := valid_fields row.
Definition valid_text_line (line : string) : bool := valid_fields (split line).

(** A 14-field record with an empty required field. *)
Definition empty_required_field (fields : list string) : bool :=
  (length fields =? 14)%nat && negb (required_fields_present fields).

Definition valid_records (log : flow_log) : nat :=
  match log with
  | CsvLog rows => length (List.filter valid_csv_row rows)
  | TextLog lines => length (List.filter valid_text_line lines)
  end.

(** Two strings that differ only in letter case: position by position the
    characters are equal or one is the lower-case form of the other. *)
Inductive case_variant : string -> string -> Prop :=
  | cv_empty : case_variant EmptyString EmptyString
  | cv_cons a b s t :
      a = b \/ lower_char a = b \/ a = lower_char b ->
      case_variant s t ->
      case_variant (String a s) (String b t).

(** A fixed 14-field record with the given destination port and protocol. *)
Definition sample_fields (dstport protocol : string) : list string :=
  ["2"; "123456789012"; "eni-0a1b2c3d"; "10.0.1.201"; "198.51.100.2";
   dstport; "49153"; protocol; "25"; "20000"; "1620140761"; "1620140821";
   "ACCEPT"; "OK"].

Definition sample_protocols : gmap string string :=
  load_protocols_from_csv
    [ProtocolRow "6" "TCP"; ProtocolRow "17" "UDP"].

Definition sample_lookup : gmap string string :=
  load_lookup_table
    [LookupRow "80" "tcp" "Web"; LookupRow " 53 " "UDP" "dns"].

(** ** Vocabulary of the further properties *)

(** Key and tag under which [load_lookup_table] stores a rule. *)
Definition rule_key (r : lookup_row) : string :=
  lookup_key (strip (row_dstport r)) (lower (strip (row_protocol r))).

Definition rule_tag (r : lookup_row) : string := lower (strip (row_tag r)).

(** The rows of a table whose key is [key], in file order. *)
Definition rules_for (key : string) (rows : list lookup_row)
    : list lookup_row :=
  List.filter (fun r => bool_decide (rule_key r = key)) rows.

Definition protocol_rows_for (decimal : string) (rows : list protocol_row)
    : list protocol_row :=
  List.filter (fun r => bool_decide (row_Decimal r = decimal)) rows.

(** A string without a colon. *)
Definition colon_free (s : string) : bool :=
  all_chars (fun c => negb (Ascii.eqb c ":"%char)) s.

(** The records of a flow log as lists of fields. *)
Definition log_fields (log : flow_log) : list (list string) :=
  match log with
  | CsvLog rows => rows
  | TextLog lines => split <$> lines
  end.

Section Classification.

Variable protocols : gmap string string.
Variable lookup_table : gmap string string.

(** What [process_row] computes from the fields of a record. *)
Definition record_dstport (fields : list string) : string :=
  strip (default EmptyString (fields !! 5%nat)).

Definition record_protocol_name (fields : list string) : string :=
  get_protcol_from_protocol_number
    (strip (default EmptyString (fields !! 7%nat))) protocols.

Definition record_tag (fields : list string) : string :=
  get_tag_from_lookup lookup_table
    (record_dstport fields) (record_protocol_name fields).

Definition record_port_protocol (fields : list string) : string * string :=
  (record_dstport fields, lower (record_protocol_name fields)).

(** The dictionaries after a step that counts the record. *)
Definition counted (fields : list string) (st : counters) : counters :=
  (bump (record_tag fields) st.1, bump (record_port_protocol fields) st.2).

(** Number of valid records counted under a tag, and under a pair. *)
Definition tag_occurrences (tag : string) (records : list (list string))
    : nat :=
  length (List.filter
            (fun f => valid_fields f && bool_decide (record_tag f = tag))
            records).

Definition port_protocol_occurrences (key : string * string)
    (records : list (list string)) : nat :=
  length (List.filter
            (fun f => valid_fields f
                      && bool_decide (record_port_protocol f = key))
            records).

End Classification.

(** The entry a dictionary of counts holds for a key counted [n] times. *)
Definition count_entry (n : nat) : option Z :=
  if (n =? 0)%nat then None else Some (Z.of_nat n).

(** The entry after [n] further increments of an entry [o]. *)
Definition add_count (n : nat) (o : option Z) : option Z :=
  if (n =? 0)%nat then o else Some (default 0 o + Z.of_nat n).

(** ** The run with insertion order, and the two writers

    A Python [dict] keeps its keys in the order of their first insertion,
    and the writers iterate over [items()] in that order.  This second
    embedding of the run keeps the order: a dictionary is the list of its
    items.  A written file is the list of the rows handed to
    [csv.writer.writerow], each a list of cells; [str(count)] is stdpp's
    [pretty]. *)

Module Ordered.

Section Dict.
Context `{EqDecision K} {V : Type}.

(** [d.get(k)] *)
Fixpoint get (k : K) (d : list (K * V)) : option V :=
  match d with
  | [] => None
  | (k', v) :: d' => if decide (k = k') then Some v else get k d'
  end.

(** [d[k] = v]: an existing key keeps its place, a new key goes last. *)
Fixpoint set (k : K) (v : V) (d : list (K * V)) : list (K * V) :=
  match d with
  | [] => [(k, v)]
  | (k', v') :: d' =>
      if decide (k = k') then (k, v) :: d' else (k', v') :: set k v d'
  end.

End Dict.

(** [d[k] = d.get(k, 0) + 1] *)
Definition bump `{EqDecision K} (k : K) (d : list (K * Z)) : list (K * Z) :=
  set k (default 0 (get k d) + 1) d.

Abbreviation counters :=
  (list (string * Z) * list ((string * string) * Z))%type.

Section Pipeline.

Variable protocols : gmap string string.
Variable lookup_table : gmap string string.

Definition process_row (row : raw_row) (st : counters) : result counters :=
  let '(tag_counts, port_protocol_counts) := st in
  r ← extract_dstport_protocol row;
  match r with
  | None => Raise TypeError
  | Some (dstport, protocol_number) =>
      if truthy dstport && truthy protocol_number then
        let protocol_name :=
          get_protcol_from_protocol_number protocol_number protocols in
        let tag := get_tag_from_lookup lookup_table dstport protocol_name in
        let tag_counts := bump tag tag_counts in
        let port_protocol_identifier := (dstport, lower protocol_name) in
        let port_protocol_counts :=
          bump port_protocol_identifier port_protocol_counts in
        Ok (tag_counts, port_protocol_counts)
      else Ok (tag_counts, port_protocol_counts)
  end.

Definition csv_step (row : list string) (st : counters) : result counters :=
  if negb (length row =? 14)%nat then Ok st
  else process_row (ListRow row) st.

Definition text_step (line : string) (st : counters) : result counters :=
  let row := strip line in
  if negb (truthy row) || negb (length (split row) =? 14)%nat then Ok st
  else process_row (StrRow row) st.

Fixpoint for_each {A : Type} (body : A -> counters -> result counters)
    (xs : list A) (st : counters) : result counters :=
  match xs with
  | [] => Ok st
  | x :: xs' => st' ← body x st; for_each body xs' st'
  end.

Definition process_flow_log_file (log : flow_log) : result counters :=
  match log with
  | CsvLog rows => for_each csv_step rows ([], [])
  | TextLog lines => for_each text_step lines ([], [])
  end.

End Pipeline.

(** The rows written to [tag_counts.csv]. *)
Definition write_tag_counts_to_csv (tag_counts : list (string * Z))
    : list (list string) :=
  ["Tag"; "Count"]
  :: ((fun '(tag, count) => [tag; pretty count]) <$> tag_counts).

(** The rows written to [port_protocol_counts.csv]. *)
Definition write_port_protocol_counts_to_csv
    (port_protocol_counts : list ((string * string) * Z))
    : list (list string) :=
  ["Port"; "Protocol"; "Count"]
  :: ((fun '((dstport_number, protocol_name), count) =>
         [dstport_number; protocol_name; pretty count])
      <$> port_protocol_counts).

(** The [__main__] block: [flow_logs.txt] is read as a text log and the
    two files are written once the run has returned.  [protocols] and
    [lookup_table] are the two module-level tables, already loaded and
    holding strings. *)
Definition main (protocols lookup_table : gmap string string)
    (flow_logs : list string)
    : result (list (list string) * list (list string)) :=
  st ← process_flow_log_file protocols lookup_table (TextLog flow_logs);
  let '(tag_counts, port_protocol_counts) := st in
  Ok (write_tag_counts_to_csv tag_counts,
      write_port_protocol_counts_to_csv port_protocol_counts).

(** The entries of an ordered dictionary, without their order. *)
Definition contents (st : counters)
    : gmap string Z * gmap (string * string) Z :=
  (list_to_map st.1, list_to_map st.2).

End Ordered.

(** The keys of a sequence in the order of their first occurrence. *)
Definition note_key `{EqDecision A} (seen : list A) (x : A) : list A :=
  if bool_decide (x ∈ seen) then seen else (seen ++ [x])%list.

Definition first_seen `{EqDecision A} (l : list A) : list A :=
  fold_left note_key l [].

(** ** Protocol names beyond U+00FF

    [str.lower()] is not a character-by-character map on all of Unicode: a
    capital sigma that ends a word becomes the final sigma.  This embedding
    of tag resolution takes a string as the list of its code points and
    follows the lower-casing loop of the interpreter.  Its case tables cover
    Basic Latin, the Latin-1 Supplement and the Greek letters alpha to omega;
    any other code point is left unchanged. *)

Module Wide.

Definition in_range (lo hi c : N) : bool := ((lo <=? c) && (c <=? hi))%N.

(** Lower-case form of one code point: A..Z, the Latin-1 capitals and the
    Greek capitals U+0391..U+03A1, U+03A3..U+03A9. *)
Definition to_lower (c : N) : N :=
  if in_range 65 90 c || in_range 192 214 c || in_range 216 222 c
     || in_range 913 929 c || in_range 931 937 c
  then (c + 32)%N else c.

(** Code points that have a case. *)
Definition is_cased (c : N) : bool :=
  in_range 65 90 c || in_range 97 122 c
  || (c =? 170)%N || (c =? 181)%N || (c =? 186)%N
  || in_range 192 214 c || in_range 216 246 c || in_range 248 255 c
  || in_range 913 929 c || in_range 931 937 c || in_range 945 969 c.

(** Code points skipped when the neighbours of a capital sigma are
    examined: apostrophe, full stop, colon, the spacing accents, the soft
    hyphen and the middle dot. *)
Definition is_case_ignorable (c : N) : bool :=
  ((c =? 39) || (c =? 46) || (c =? 58) || (c =? 94) || (c =? 96)
   || (c =? 168) || (c =? 173) || (c =? 175) || (c =? 180) || (c =? 183)
   || (c =? 184))%N.

(** The first code point of [s] that is not skipped has a case. *)
Fixpoint next_is_cased (s : list N) : bool :=
  match s with
  | [] => false
  | c :: s' => if is_case_ignorable c then next_is_cased s' else is_cased c
  end.

(** Lower-case form of a capital sigma: the final sigma U+03C2 after a
    cased letter and before none, the sigma U+03C3 otherwise.  [before] is
    the text that precedes it, nearest code point first. *)
Definition handle_capital_sigma (before after : list N) : N :=
  if next_is_cased before && negb (next_is_cased after) then 962%N
  else 963%N.

Fixpoint lower_from (before s : list N) : list N :=
  match s with
  | [] => []
  | c :: s' =>
      (if (c =? 931)%N then handle_capital_sigma before s' else to_lower c)
      :: lower_from (c :: before) s'
  end.

(** [s.lower()] *)
Definition lower (s : list N) : list N := lower_from [] s.

(** The code points of a string of the first embedding. *)
Definition of_string (s : string) : list N :=
  N_of_ascii <$> list_ascii_of_string s.

(** [lookup_table.get(key) or "Untagged"] *)
Definition get_tag_from_lookup
    (lookup_table : gmap (list N) (list N)) (dstport protocol : list N)
    : list N :=
  let key := (dstport ++ of_string ":" ++ lower protocol)%list in
  match lookup_table !! key with
  | Some [] => of_string "Untagged"
  | Some tag => tag
  | None => of_string "Untagged"
  end.

(** Two strings that differ only in letter case. *)
Definition case_variant (p1 p2 : list N) : Prop :=
  Forall2 (fun a b => a = b \/ to_lower a = b \/ a = to_lower b) p1 p2.

End Wide.

(** * Properties *)

Example split_ex :
  split "  2 123   eni-0a1b	10.0.1.201
 " = ["2"; "123"; "eni-0a1b"; "10.0.1.201"].
Proof. reflexivity. Qed.
Example strip_ex : strip "  80 tcp  " = "80 tcp".
Proof. reflexivity. Qed.
Example lower_ex : lower "TCP-v6 Route" = "tcp-v6 route".
Proof. reflexivity. Qed.

(** ** Strings *)

Section StringFacts.

Lemma lower_char_idemp c : lower_char (lower_char c) = lower_char c.
Proof. destruct c as [[] [] [] [] [] [] [] []]; reflexivity. Qed.

Lemma lower_idemp s : lower (lower s) = lower s.
Proof.
  induction s as [|c s IH]; simpl; [reflexivity|].
  now rewrite lower_char_idemp, IH.
Qed.


Lemma truthy_true s : truthy s = true <-> s <> EmptyString.
Proof. destruct s; simpl; split; intros; congruence. Qed.

Lemma truthy_false s : truthy s = false <-> s = EmptyString.
Proof. destruct s; simpl; split; intros; congruence. Qed.

Lemma rstrip_idemp s : rstrip (rstrip s) = rstrip s.
Proof.
  induction s as [|c s IH]; simpl; [reflexivity|].
  destruct (rstrip s) as [|d r] eqn:Hr.
  - destruct (isspace c) eqn:Hc; simpl; [reflexivity|]. now rewrite Hc.
  - simpl in *. now rewrite IH.
Qed.

Lemma lstrip_lstripped s : lstripped (lstrip s) = true.
Proof.
  induction s as [|c s IH]; simpl; [reflexivity|].
  destruct (isspace c) eqn:Hc; simpl; [assumption|]. now rewrite Hc.
Qed.

Lemma lstripped_fixed s : lstripped s = true -> lstrip s = s.
Proof.
  destruct s as [|c s]; simpl; [reflexivity|].
  now destruct (isspace c).
Qed.

Lemma rstrip_lstripped s : lstripped s = true -> lstripped (rstrip s) = true.
Proof.
  destruct s as [|c s]; simpl; [reflexivity|]. intros Hc.
  destruct (rstrip s); simpl; [|assumption].
  destruct (isspace c) eqn:E; simpl in *; [reflexivity|]. now rewrite E.
Qed.

Lemma strip_idemp s : strip (strip s) = strip s.
Proof.
  unfold strip.
  rewrite (lstripped_fixed (rstrip (lstrip s))).
  - apply rstrip_idemp.
  - apply rstrip_lstripped, lstrip_lstripped.
Qed.

Lemma rstrip_spaceless s : spaceless s = true -> rstrip s = s.
Proof.
  unfold spaceless.
  induction s as [|c s IH]; simpl; [reflexivity|].
  intros [Hc Hs]%andb_prop. rewrite (IH Hs).
  destruct s; [|reflexivity]. now destruct (isspace c).
Qed.

Lemma strip_spaceless s : spaceless s = true -> strip s = s.
Proof.
  intros Hs. unfold strip. rewrite lstripped_fixed.
  - now apply rstrip_spaceless.
  - destruct s as [|c s]; [reflexivity|].
    unfold spaceless in Hs. simpl in *. now apply andb_prop in Hs as [-> _].
Qed.

Lemma spaceless_snoc tok c :
  spaceless tok = true -> isspace c = false ->
  spaceless (tok +:+ String c EmptyString) = true.
Proof.
  unfold spaceless. intros Ht Hc.
  induction tok as [|d tok IH]; simpl in *.
  - now rewrite Hc.
  - apply andb_prop in Ht as [-> Ht]. now apply IH.
Qed.

Lemma truthy_snoc tok c : truthy (tok +:+ String c EmptyString) = true.
Proof. now destruct tok. Qed.

Lemma split_acc_tokens s : forall tok,
  spaceless tok = true -> Forall token (split_acc tok s).
Proof.
  induction s as [|c s IH]; intros tok Htok; simpl.
  - unfold flush. destruct (truthy tok) eqn:Ht; repeat constructor; assumption.
  - destruct (isspace c) eqn:Hc.
    + apply Forall_app. split; [|now apply IH].
      unfold flush. destruct (truthy tok) eqn:Ht; repeat constructor; assumption.
    + apply IH. now apply spaceless_snoc.
Qed.

Lemma split_tokens s : Forall token (split s).
Proof. now apply split_acc_tokens. Qed.

Lemma token_strip t : token t -> strip t = t /\ truthy (strip t) = true.
Proof.
  intros [Ht Hs]. rewrite (strip_spaceless _ Hs). now split.
Qed.

Lemma split_lstrip s : split (lstrip s) = split s.
Proof.
  unfold split.
  induction s as [|c s IH]; simpl; [reflexivity|].
  destruct (isspace c) eqn:Hc; simpl; [assumption|]. now rewrite Hc.
Qed.

Lemma split_acc_rstrip s : forall tok,
  split_acc tok (rstrip s) = split_acc tok s.
Proof.
  induction s as [|c s IH]; intros tok; simpl; [reflexivity|].
  destruct (rstrip s) as [|d r] eqn:Hr.
  - destruct (isspace c) eqn:Hc; simpl.
    + rewrite <- IH. simpl. now rewrite app_nil_r.
    + rewrite Hc. now rewrite <- IH.
  - simpl. destruct (isspace c); now rewrite <- !IH.
Qed.

Lemma split_strip s : split (strip s) = split s.
Proof.
  unfold strip, split at 1. rewrite split_acc_rstrip. apply split_lstrip.
Qed.

(** A line that is blank once trimmed has no token. *)
Lemma split_blank s : strip s = EmptyString -> split s = [].
Proof. intros H. rewrite <- split_strip, H. reflexivity. Qed.

End StringFacts.

(** ** Dictionaries *)

Section DictFacts.
Context `{Countable K}.

Lemma sum_values_empty : sum_values (∅ : gmap K Z) = 0.
Proof. apply map_fold_empty. Qed.

Lemma sum_values_insert_fresh (k : K) (v : Z) (d : gmap K Z) :
  d !! k = None -> sum_values (<[k := v]> d) = v + sum_values d.
Proof.
  intros Hk. unfold sum_values.
  apply (map_fold_insert_L (fun _ v acc => v + acc)); [|assumption].
  intros. lia.
Qed.

Lemma sum_values_lookup (k : K) (v : Z) (d : gmap K Z) :
  d !! k = Some v -> sum_values d = v + sum_values (delete k d).
Proof.
  intros Hk. unfold sum_values.
  apply (map_fold_delete_L (fun _ v acc => v + acc)); [|assumption].
  intros. lia.
Qed.

Lemma sum_values_bump (k : K) (d : gmap K Z) :
  sum_values (bump k d) = sum_values d + 1.
Proof.
  unfold bump. destruct (d !! k) as [v|] eqn:Hk; simpl.
  - rewrite (sum_values_lookup k v d Hk).
    rewrite <- (insert_delete_eq d k).
    rewrite sum_values_insert_fresh by apply lookup_delete_eq. lia.
  - rewrite sum_values_insert_fresh by assumption. lia.
Qed.

Lemma lookup_bump_eq (k : K) (d : gmap K Z) :
  bump k d !! k = Some (default 0 (d !! k) + 1).
Proof. apply lookup_insert_eq. Qed.

Lemma lookup_bump_ne (k j : K) (d : gmap K Z) :
  k <> j -> bump k d !! j = d !! j.
Proof. intros. now apply lookup_insert_ne. Qed.

End DictFacts.

(** ** Reference tables *)

Section TableFacts.

Lemma load_lookup_table_snoc rows r :
  load_lookup_table (rows ++ [r]) =
  <[lookup_key (strip (row_dstport r)) (lower (strip (row_protocol r)))
      := lower (strip (row_tag r))]> (load_lookup_table rows).
Proof. unfold load_lookup_table. now rewrite fold_left_app. Qed.

Lemma load_protocols_snoc rows r :
  load_protocols_from_csv (rows ++ [r]) =
  <[row_Decimal r := row_Keyword r]> (load_protocols_from_csv rows).
Proof. unfold load_protocols_from_csv. now rewrite fold_left_app. Qed.

(** Every tag stored at load time is in lower case. *)
Lemma load_lookup_table_lower rows : forall key tag,
  load_lookup_table rows !! key = Some tag -> lower tag = tag.
Proof.
  induction rows as [|r rows IH] using rev_ind; intros key tag.
  - unfold load_lookup_table. simpl. now rewrite lookup_empty.
  - rewrite load_lookup_table_snoc, lookup_insert.
    case_decide.
    + intros [= <-]. apply lower_idemp.
    + apply IH.
Qed.

Lemma get_tag_absent lookup_table dstport protocol :
  lookup_table !! lookup_key dstport (lower protocol) = None ->
  get_tag_from_lookup lookup_table dstport protocol = "Untagged".
Proof. unfold get_tag_from_lookup. now intros ->. Qed.

Lemma get_tag_empty lookup_table dstport protocol :
  lookup_table !! lookup_key dstport (lower protocol) = Some EmptyString ->
  get_tag_from_lookup lookup_table dstport protocol = "Untagged".
Proof. unfold get_tag_from_lookup. now intros ->. Qed.

Lemma get_tag_present lookup_table dstport protocol tag :
  lookup_table !! lookup_key dstport (lower protocol) = Some tag ->
  tag <> EmptyString ->
  get_tag_from_lookup lookup_table dstport protocol = tag.
Proof.
  unfold get_tag_from_lookup. intros -> Htag.
  apply truthy_true in Htag. now rewrite Htag.
Qed.

End TableFacts.

(** ** Extraction *)

Section ExtractFacts.

Lemma fields14_lookup (fields : list string) :
  length fields = 14%nat ->
  exists f5 f7, fields !! 5%nat = Some f5 /\ fields !! 7%nat = Some f7.
Proof.
  intros Hlen.
  destruct (lookup_lt_is_Some_2 fields 5) as [f5 H5]; [lia|].
  destruct (lookup_lt_is_Some_2 fields 7) as [f7 H7]; [lia|].
  eauto.
Qed.

(** With 14 fields extraction returns: the pair when both required fields
    are present, [None] otherwise. *)
Lemma extract_14 (row : raw_row) :
  length (fields_of row) = 14%nat ->
  exists f5 f7,
    fields_of row !! 5%nat = Some f5 /\ fields_of row !! 7%nat = Some f7 /\
    extract_dstport_protocol row =
      Ok (if required_fields_present (fields_of row)
          then Some (strip f5, strip f7) else None).
Proof.
  intros Hlen. destruct (fields14_lookup _ Hlen) as (f5 & f7 & H5 & H7).
  exists f5, f7. split; [assumption|]. split; [assumption|].
  unfold extract_dstport_protocol, required_fields_present, subscript.
  rewrite H5, H7. simpl.
  destruct (truthy (strip f5)), (truthy (strip f7)); reflexivity.
Qed.

Lemma extract_some_trimmed (row : raw_row) (d p : string) :
  extract_dstport_protocol row = Ok (Some (d, p)) ->
  strip d = d /\ strip p = p /\ truthy d = true /\ truthy p = true.
Proof.
  unfold extract_dstport_protocol, subscript.
  destruct (fields_of row !! 5%nat) as [f5|]; simpl; [|discriminate].
  destruct (fields_of row !! 7%nat) as [f7|]; simpl; [|discriminate].
  destruct (truthy (strip f5)) eqn:H5, (truthy (strip f7)) eqn:H7;
    simpl; try discriminate.
  intros [= <- <-]. auto using strip_idemp.
Qed.

(** The tokens of a split line are all present once trimmed. *)
Lemma split_required_fields_present s :
  length (split s) = 14%nat -> required_fields_present (split s) = true.
Proof.
  intros Hlen. destruct (fields14_lookup _ Hlen) as (f5 & f7 & H5 & H7).
  unfold required_fields_present. rewrite H5, H7.
  pose proof (split_tokens s) as Htok.
  rewrite Forall_lookup in Htok.
  destruct (token_strip _ (Htok _ _ H5)) as [_ ->].
  destruct (token_strip _ (Htok _ _ H7)) as [_ ->].
  reflexivity.
Qed.

End ExtractFacts.

(** ** The record loop *)

Section PipelineFacts.

Variable protocols : gmap string string.
Variable lookup_table : gmap string string.

Local Abbreviation process_row := (process_row protocols lookup_table).
Local Abbreviation csv_step := (csv_step protocols lookup_table).
Local Abbreviation text_step := (text_step protocols lookup_table).

(** A valid record bumps one key of each dictionary. *)
Lemma process_row_valid (row : raw_row) (st : counters) :
  valid_fields (fields_of row) = true ->
  exists dstport protocol_number,
    extract_dstport_protocol row = Ok (Some (dstport, protocol_number)) /\
    let protocol_name :=
      get_protcol_from_protocol_number protocol_number protocols in
    let tag := get_tag_from_lookup lookup_table dstport protocol_name in
    process_row row st =
      Ok (bump tag st.1, bump (dstport, lower protocol_name) st.2).
Proof.
  unfold valid_fields. intros [Hlen Hreq]%andb_prop.
  apply Nat.eqb_eq in Hlen.
  destruct (extract_14 row Hlen) as (f5 & f7 & H5 & H7 & Hex).
  rewrite Hreq in Hex.
  unfold required_fields_present in Hreq. rewrite H5, H7 in Hreq.
  exists (strip f5), (strip f7). split; [assumption|].
  destruct st as [tc ppc]. unfold process_row. rewrite Hex. simpl.
  now rewrite Hreq.
Qed.

Lemma process_row_valid_sums (row : raw_row) (st : counters) :
  valid_fields (fields_of row) = true ->
  exists st', process_row row st = Ok st' /\
    sum_values st'.1 = sum_values st.1 + 1 /\
    sum_values st'.2 = sum_values st.2 + 1.
Proof.
  intros Hv.
  destruct (process_row_valid row st Hv) as (d & p & _ & Hrow).
  cbv zeta in Hrow. rewrite Hrow. eexists. split; [reflexivity|]. simpl.
  now rewrite !sum_values_bump.
Qed.

(** A 14-field record with an empty required field: unpacking [None]. *)
Lemma process_row_empty_required (row : raw_row) (st : counters) :
  empty_required_field (fields_of row) = true ->
  process_row row st = Raise TypeError.
Proof.
  unfold empty_required_field. intros [Hlen Hreq]%andb_prop.
  apply Nat.eqb_eq in Hlen. apply negb_true_iff in Hreq.
  destruct (extract_14 row Hlen) as (f5 & f7 & _ & _ & Hex).
  rewrite Hreq in Hex.
  destruct st as [tc ppc]. unfold process_row. now rewrite Hex.
Qed.

Lemma csv_step_skip (row : list string) (st : counters) :
  length row <> 14%nat -> csv_step row st = Ok st.
Proof.
  intros Hlen. unfold csv_step.
  apply Nat.eqb_neq in Hlen. now rewrite Hlen.
Qed.

Lemma text_step_skip (line : string) (st : counters) :
  length (split line) <> 14%nat -> text_step line st = Ok st.
Proof.
  intros Hlen. unfold text_step. rewrite split_strip.
  apply Nat.eqb_neq in Hlen. rewrite Hlen. simpl.
  now rewrite orb_true_r.
Qed.

Lemma text_step_14 (line : string) (st : counters) :
  length (split line) = 14%nat ->
  truthy (strip line) = true /\
  text_step line st = process_row (StrRow (strip line)) st.
Proof.
  intros Hlen.
  assert (Hne : truthy (strip line) = true).
  { destruct (truthy (strip line)) eqn:Ht; [reflexivity|].
    apply truthy_false, split_blank in Ht. now rewrite Ht in Hlen. }
  split; [assumption|].
  unfold text_step. rewrite Hne, split_strip.
  apply Nat.eqb_eq in Hlen. now rewrite Hlen.
Qed.

(** The three cases of the body of the [.csv] loop. *)
Lemma csv_step_cases (row : list string) (st : counters) :
  (valid_csv_row row = true /\
   exists st', csv_step row st = Ok st' /\
     sum_values st'.1 = sum_values st.1 + 1 /\
     sum_values st'.2 = sum_values st.2 + 1) \/
  (valid_csv_row row = false /\ empty_required_field row = false /\
   csv_step row st = Ok st) \/
  (valid_csv_row row = false /\ empty_required_field row = true /\
   csv_step row st = Raise TypeError).
Proof.
  unfold valid_csv_row.
  destruct (valid_fields row) eqn:Hv.
  - left. split; [reflexivity|].
    unfold csv_step. pose proof Hv as [Hlen _]%andb_prop. rewrite Hlen.
    now apply (process_row_valid_sums (ListRow row)).
  - right. destruct (empty_required_field row) eqn:He.
    + right. repeat split.
      unfold csv_step. pose proof He as [Hlen _]%andb_prop. rewrite Hlen.
      now apply (process_row_empty_required (ListRow row)).
    + left. repeat split.
      unfold valid_fields, empty_required_field in *.
      destruct (length row =? 14)%nat eqn:Hlen.
      * simpl in *. destruct (required_fields_present row); discriminate.
      * apply csv_step_skip. now apply Nat.eqb_neq.
Qed.

(** The two cases of the body of the text loop: it never raises. *)
Lemma text_step_cases (line : string) (st : counters) :
  (valid_text_line line = true /\
   exists st', text_step line st = Ok st' /\
     sum_values st'.1 = sum_values st.1 + 1 /\
     sum_values st'.2 = sum_values st.2 + 1) \/
  (valid_text_line line = false /\ text_step line st = Ok st).
Proof.
  unfold valid_text_line, valid_fields.
  destruct (length (split line) =? 14)%nat eqn:Hlen.
  - left. apply Nat.eqb_eq in Hlen.
    rewrite (split_required_fields_present _ Hlen). split; [reflexivity|].
    destruct (text_step_14 line st Hlen) as [_ ->].
    apply process_row_valid_sums. simpl. rewrite split_strip.
    unfold valid_fields. rewrite (split_required_fields_present _ Hlen).
    apply Nat.eqb_eq in Hlen. now rewrite Hlen.
  - right. split; [reflexivity|].
    apply text_step_skip. now apply Nat.eqb_neq.
Qed.

Lemma for_each_app {A} (body : A -> counters -> result counters) xs ys st :
  for_each body (xs ++ ys) st =
  (st' ← for_each body xs st; for_each body ys st').
Proof.
  revert st. induction xs as [|x xs IH]; intros st; simpl; [reflexivity|].
  destruct (body x st) as [st'|e]; simpl; [apply IH|reflexivity].
Qed.

(** Loop invariant of the [.csv] loop. *)
Lemma for_each_csv (rows : list (list string)) : forall st : counters,
  match for_each csv_step rows st with
  | Ok st' =>
      let n := Z.of_nat (length (List.filter valid_csv_row rows)) in
      sum_values st'.1 = sum_values st.1 + n /\
      sum_values st'.2 = sum_values st.2 + n /\
      Forall (fun row => empty_required_field row = false) rows
  | Raise e =>
      e = TypeError /\
      Exists (fun row => empty_required_field row = true) rows
  end.
Proof.
  induction rows as [|row rows IH]; intros st; simpl.
  - repeat split; [lia|lia|constructor].
  - destruct (csv_step_cases row st)
      as [(Hv & st1 & -> & H1 & H2)|[(Hv & He & ->)|(Hv & He & ->)]];
      simpl; unfold valid_csv_row in *.
    + specialize (IH st1). rewrite Hv. simpl length.
      destruct (for_each csv_step rows st1) as [st'|e].
      * destruct IH as (IH1 & IH2 & IH3). cbv zeta in *.
        repeat split; [lia|lia|].
        constructor; [|assumption].
        unfold valid_fields, empty_required_field in *.
        apply andb_prop in Hv as [-> ->]. reflexivity.
      * destruct IH as [-> IH]. split; [reflexivity|]. now apply Exists_cons_tl.
    + specialize (IH st). rewrite Hv.
      destruct (for_each csv_step rows st) as [st'|e].
      * destruct IH as (IH1 & IH2 & IH3). repeat split; try assumption.
        now constructor.
      * destruct IH as [-> IH]. split; [reflexivity|]. now apply Exists_cons_tl.
    + split; [reflexivity|]. now apply Exists_cons_hd.
Qed.

(** Loop invariant of the text loop. *)
Lemma for_each_text (lines : list string) : forall st : counters,
  exists st', for_each text_step lines st = Ok st' /\
    let n := Z.of_nat (length (List.filter valid_text_line lines)) in
    sum_values st'.1 = sum_values st.1 + n /\
    sum_values st'.2 = sum_values st.2 + n.
Proof.
  induction lines as [|line lines IH]; intros st; simpl.
  - exists st. repeat split; lia.
  - destruct (text_step_cases line st) as [(Hv & st1 & -> & H1 & H2)|(Hv & ->)];
      simpl; rewrite Hv.
    + destruct (IH st1) as (st' & -> & IH1 & IH2). exists st'.
      split; [reflexivity|]. simpl length. cbv zeta in *. lia.
    + apply IH.
Qed.

End PipelineFacts.

(** * The claims *)

(** ** Tag and protocol resolution *)

(** C5: for every tag lookup table, resolving a (port, protocol-name) pair
    whose composite key is absent from the table, or present with an empty
    value, returns the sentinel ["Untagged"]; a key present with a non-empty
    value returns the stored tag. *)
Theorem C5_untagged_fallback
    (lookup_table : gmap string string) (dstport protocol : string) :
  let key := lookup_key dstport (lower protocol) in
  let tag := get_tag_from_lookup lookup_table dstport protocol in
  (lookup_table !! key = None -> tag = "Untagged") /\
  (lookup_table !! key = Some EmptyString -> tag = "Untagged") /\
  (forall stored, lookup_table !! key = Some stored ->
     stored <> EmptyString -> tag = stored).
Proof.
  cbv zeta. split; [|split].
  - apply get_tag_absent.
  - apply get_tag_empty.
  - intros stored. apply get_tag_present.
Qed.

Lemma C5_untagged_fallback_witness :
  get_tag_from_lookup sample_lookup "443" "tcp" = "Untagged" /\
  get_tag_from_lookup (<["25:tcp" := EmptyString]> sample_lookup) "25" "TCP"
    = "Untagged" /\
  get_tag_from_lookup sample_lookup "53" "UDP" = "dns".
Proof.
  split; [|split].
  - destruct (C5_untagged_fallback sample_lookup "443" "tcp") as [Habsent _].
    apply Habsent. reflexivity.
  - destruct (C5_untagged_fallback
                (<["25:tcp" := EmptyString]> sample_lookup) "25" "TCP")
      as (_ & Hempty & _).
    apply Hempty. reflexivity.
  - destruct (C5_untagged_fallback sample_lookup "53" "UDP")
      as (_ & _ & Hstored).
    apply Hstored; [reflexivity|discriminate].
Defined.

(** C6: for every protocol registry and protocol-number string, resolution
    returns the registered keyword when that exact string is a key of the
    registry and the sentinel ["Unassigned"] otherwise; the key is not
    parsed as a number, so ["6"] and ["06"] are different keys. *)
Theorem C6_protocol_resolution
    (protocols : gmap string string) (protocol_number : string) :
  let name := get_protcol_from_protocol_number protocol_number protocols in
  (forall keyword, protocols !! protocol_number = Some keyword ->
     name = keyword) /\
  (protocols !! protocol_number = None -> name = "Unassigned") /\
  (get_protcol_from_protocol_number "6"
     (load_protocols_from_csv [ProtocolRow "6" "TCP"]) = "TCP" /\
   get_protcol_from_protocol_number "06"
     (load_protocols_from_csv [ProtocolRow "6" "TCP"]) = "Unassigned").
Proof.
  cbv zeta. unfold get_protcol_from_protocol_number.
  split; [|split].
  - now intros keyword ->.
  - now intros ->.
  - split; reflexivity.
Qed.

Lemma C6_protocol_resolution_witness :
  get_protcol_from_protocol_number "17" sample_protocols = "UDP" /\
  get_protcol_from_protocol_number "017" sample_protocols = "Unassigned".
Proof.
  split.
  - destruct (C6_protocol_resolution sample_protocols "17") as [Hkey _].
    apply Hkey. reflexivity.
  - destruct (C6_protocol_resolution sample_protocols "017")
      as (_ & Hnone & _).
    apply Hnone. reflexivity.
Defined.




(** C3, as stated, fails: resolution does not trim the port, so a port with
    surrounding white space misses the key that its trimmed form finds. *)
Lemma C3_untrimmed_port_counterexample :
  get_tag_from_lookup sample_lookup " 80 " "TCP" = "Untagged" /\
  get_tag_from_lookup sample_lookup (strip " 80 ") "TCP" = "web".
Proof. split; reflexivity. Qed.

(** C3, amended: resolution builds its key from the port string as given,
    a colon and the lower-cased protocol name, without trimming the port.
    For every lookup table and protocol name, resolving (port, protocol)
    returns the same tag as resolving (trimmed port, protocol) when the port
    has no surrounding white space, which holds for every port that
    extraction yields. *)
Theorem C3_resolution_key
    (lookup_table : gmap string string) (dstport protocol : string) :
  get_tag_from_lookup lookup_table dstport protocol =
    match lookup_table !! (dstport +:+ ":" +:+ lower protocol) with
    | Some tag => if truthy tag then tag else "Untagged"
    | None => "Untagged"
    end /\
  (strip dstport = dstport \/
   (exists row protocol_number,
      extract_dstport_protocol row = Ok (Some (dstport, protocol_number))) ->
   get_tag_from_lookup lookup_table dstport protocol =
   get_tag_from_lookup lookup_table (strip dstport) protocol).
Proof.
  split; [reflexivity|].
  intros [Htrim|(row & pn & Hex)].
  - now rewrite Htrim.
  - destruct (extract_some_trimmed _ _ _ Hex) as [Htrim _]. now rewrite Htrim.
Qed.

Lemma C3_resolution_key_witness :
  extract_dstport_protocol (ListRow (sample_fields " 80 " "6"))
    = Ok (Some ("80", "6")) /\
  get_tag_from_lookup sample_lookup "80" "TCP" =
  get_tag_from_lookup sample_lookup (strip "80") "TCP".
Proof.
  split; [reflexivity|].
  destruct (C3_resolution_key sample_lookup "80" "TCP") as [_ Hsame].
  apply Hsame. right. exists (ListRow (sample_fields " 80 " "6")), "6". reflexivity.
Defined.

(** C4, as stated, fails: the default tag of an unmatched pair is
    ["Untagged"] with a capital letter, not the lower-case ["untagged"]. *)
Lemma C4_default_tag_counterexample :
  let tag := get_tag_from_lookup sample_lookup "443" "tcp" in
  sample_lookup !! lookup_key "443" (lower "tcp") = None /\
  tag <> "untagged" /\ lower tag <> tag.
Proof. cbv zeta. split; [reflexivity|]. split; discriminate. Qed.

(** C4, amended: every tag matched from a loaded table is lower case,
    because tags are stored lower case at load time; for every
    (port, protocol-name) pair with no match in the table the returned
    default tag is the string ["Untagged"], which is not lower case. *)
Theorem C4_matched_tags_lowercase
    (rows : list lookup_row) (dstport protocol : string) :
  let lookup_table := load_lookup_table rows in
  let key := lookup_key dstport (lower protocol) in
  let tag := get_tag_from_lookup lookup_table dstport protocol in
  (forall stored, lookup_table !! key = Some stored ->
     stored <> EmptyString -> tag = stored /\ lower tag = tag) /\
  (lookup_table !! key = None -> tag = "Untagged") /\
  lower "Untagged" <> "Untagged".
Proof.
  cbv zeta. split; [|split].
  - intros stored Hkey Hne.
    rewrite (get_tag_present _ _ _ _ Hkey Hne).
    split; [reflexivity|]. exact (load_lookup_table_lower _ _ _ Hkey).
  - apply get_tag_absent.
  - discriminate.
Qed.

Lemma C4_matched_tags_lowercase_witness :
  get_tag_from_lookup
    (load_lookup_table [LookupRow "80" "tcp" "Web"]) "80" "TCP" = "web" /\
  get_tag_from_lookup
    (load_lookup_table [LookupRow "80" "tcp" "Web"]) "443" "TCP" = "Untagged".
Proof.
  split.
  - destruct (C4_matched_tags_lowercase
                [LookupRow "80" "tcp" "Web"] "80" "TCP") as [Hstored _].
    apply (Hstored "web"); [reflexivity|discriminate].
  - destruct (C4_matched_tags_lowercase
                [LookupRow "80" "tcp" "Web"] "443" "TCP") as (_ & Hnone & _).
    apply Hnone. reflexivity.
Defined.

(** ** The record pipeline *)

(** C1: the claim is that a 14-field row whose destination port or protocol
    number is empty after trimming is skipped without an error.  The code
    instead unpacks the [None] that extraction returns and raises
    [TypeError]: the run stops at that row, and the records after it are
    never read. *)
Theorem C1_empty_required_field_raises
    (protocols lookup_table : gmap string string) :
  extract_dstport_protocol (ListRow (sample_fields "" "6")) = Ok None /\
  process_flow_log_file protocols lookup_table
    (CsvLog [sample_fields "80" "6"; sample_fields "" "6";
             sample_fields "53" "17"])
  = Raise TypeError.
Proof. split; reflexivity. Qed.

(** C2: every valid record (14 fields, both required fields non-empty after
    trimming) adds exactly one to one key of [tag_counts] and exactly one to
    one key of [port_protocol_counts]; so for every flow log, once the run
    has completed, the values of both dictionaries sum to the number of
    valid records.  The run completes unless a [.csv] row has 14 fields and
    an empty required field, which never happens for a text log. *)
Theorem C2_counts_sum_to_valid_records
    (protocols lookup_table : gmap string string) :
  (forall (row : raw_row) (st : counters),
     valid_fields (fields_of row) = true ->
     exists tag port_protocol_identifier,
       process_row protocols lookup_table row st =
         Ok (bump tag st.1, bump port_protocol_identifier st.2) /\
       sum_values (bump tag st.1) = sum_values st.1 + 1 /\
       sum_values (bump port_protocol_identifier st.2)
         = sum_values st.2 + 1) /\
  (forall log : flow_log,
     match process_flow_log_file protocols lookup_table log with
     | Ok (tag_counts, port_protocol_counts) =>
         sum_values tag_counts = Z.of_nat (valid_records log) /\
         sum_values port_protocol_counts = Z.of_nat (valid_records log)
     | Raise _ =>
         exists rows, log = CsvLog rows /\
           Exists (fun row => empty_required_field row = true) rows
     end).
Proof.
  split.
  - intros row st Hv.
    destruct (process_row_valid protocols lookup_table row st Hv)
      as (d & p & _ & Hrow).
    cbv zeta in Hrow. do 2 eexists. split; [exact Hrow|].
    now rewrite !sum_values_bump.
  - intros [rows|lines]; simpl.
    + pose proof (for_each_csv protocols lookup_table rows (∅, ∅)) as Hloop.
      destruct (for_each _ rows _) as [[tc ppc]|e].
      * destruct Hloop as (Htc & Hppc & _). simpl in Htc, Hppc.
        rewrite sum_values_empty in Htc. rewrite sum_values_empty in Hppc.
        split; lia.
      * destruct Hloop as [_ Hex]. eauto.
    + destruct (for_each_text protocols lookup_table lines (∅, ∅))
        as ([tc ppc] & -> & Htc & Hppc).
      simpl in Htc, Hppc.
      rewrite sum_values_empty in Htc. rewrite sum_values_empty in Hppc.
      split; lia.
Qed.

Lemma C2_counts_sum_to_valid_records_witness :
  let st : counters := ({["web" := 2]}, {[("80", "tcp") := 2]}) in
  exists tag port_protocol_identifier,
    process_row sample_protocols sample_lookup
      (ListRow (sample_fields "80" "6")) st =
      Ok (bump tag st.1, bump port_protocol_identifier st.2) /\
    sum_values (bump tag st.1) = sum_values st.1 + 1 /\
    sum_values (bump port_protocol_identifier st.2) = sum_values st.2 + 1.
Proof.
  intros st.
  destruct (C2_counts_sum_to_valid_records sample_protocols sample_lookup)
    as [Hrow _].
  apply (Hrow (ListRow (sample_fields "80" "6")) st). reflexivity.
Defined.

(** C7: a row or line whose field count differs from 14, a blank line of
    a text log included, is skipped: no error is raised and both
    dictionaries are the same after the row as before it. *)
Theorem C7_wrong_field_count_skipped
    (protocols lookup_table : gmap string string) (st : counters) :
  (forall row : list string,
     csv_field_count row <> 14%nat ->
     csv_step protocols lookup_table row st = Ok st) /\
  (forall line : string,
     text_field_count line <> 14%nat ->
     text_step protocols lookup_table line st = Ok st) /\
  (forall line : string,
     strip line = EmptyString ->
     text_step protocols lookup_table line st = Ok st).
Proof.
  split; [|split].
  - intros row. apply csv_step_skip.
  - intros line. apply text_step_skip.
  - intros line Hblank. apply text_step_skip.
    now rewrite (split_blank _ Hblank).
Qed.

Lemma C7_wrong_field_count_skipped_witness :
  let st : counters := ({["web" := 2]}, {[("80", "tcp") := 2]}) in
  csv_step sample_protocols sample_lookup ["2"; "123"; "eni"; ""; "80"; "6"] st
    = Ok st /\
  text_step sample_protocols sample_lookup "2 123 eni 10.0.0.1 80 6 ACCEPT" st
    = Ok st /\
  text_step sample_protocols sample_lookup "   " st = Ok st.
Proof.
  intros st.
  destruct (C7_wrong_field_count_skipped sample_protocols sample_lookup st)
    as (Hcsv & Htext & Hblank).
  split; [|split].
  - apply Hcsv. vm_compute. lia.
  - apply Htext. vm_compute. lia.
  - apply Hblank. reflexivity.
Defined.

(** C9: with exactly 14 fields the subscripts 5 and 7 of extraction are in
    range, so extraction returns without [IndexError]; the pipeline only
    calls extraction on such rows, so no run raises [IndexError]. *)
Theorem C9_subscripts_in_range :
  (forall row : raw_row,
     length (fields_of row) = 14%nat ->
     exists f5 f7 r,
       subscript (fields_of row) 5 = Ok f5 /\
       subscript (fields_of row) 7 = Ok f7 /\
       extract_dstport_protocol row = Ok r) /\
  (forall (protocols lookup_table : gmap string string) (log : flow_log),
     process_flow_log_file protocols lookup_table log <> Raise IndexError).
Proof.
  split.
  - intros row Hlen.
    destruct (extract_14 row Hlen) as (f5 & f7 & H5 & H7 & Hex).
    exists f5, f7. eexists. unfold subscript. rewrite H5, H7. eauto.
  - intros protocols lookup_table [rows|lines]; simpl.
    + pose proof (for_each_csv protocols lookup_table rows (∅, ∅)) as Hloop.
      destruct (for_each _ rows _) as [st|e]; [discriminate|].
      destruct Hloop as [-> _]. discriminate.
    + destruct (for_each_text protocols lookup_table lines (∅, ∅))
        as (st & -> & _).
      discriminate.
Qed.

Lemma C9_subscripts_in_range_witness :
  exists f5 f7 r,
    subscript (sample_fields "443" "6") 5 = Ok f5 /\
    subscript (sample_fields "443" "6") 7 = Ok f7 /\
    extract_dstport_protocol (ListRow (sample_fields "443" "6")) = Ok r.
Proof.
  destruct C9_subscripts_in_range as [Hrow _].
  apply (Hrow (ListRow (sample_fields "443" "6"))). reflexivity.
Defined.

(** C10: in a text log, for every non-blank line whose white-space split
    yields exactly 14 tokens, extraction succeeds: the tokens are non-empty
    and free of white space, so both extracted fields are non-empty after
    trimming, extraction returns the pair, and the loop body returns without
    raising. *)
Theorem C10_text_extraction_succeeds
    (protocols lookup_table : gmap string string)
    (line : string) (st : counters) :
  strip line <> EmptyString ->
  text_field_count line = 14%nat ->
  (forall t, t ∈ split (strip line) ->
     t <> EmptyString /\ spaceless t = true /\ strip t = t) /\
  (exists dstport protocol_number,
     extract_dstport_protocol (StrRow (strip line))
       = Ok (Some (dstport, protocol_number)) /\
     dstport <> EmptyString /\ protocol_number <> EmptyString) /\
  (exists st', text_step protocols lookup_table line st = Ok st').
Proof.
  unfold text_field_count. intros _ Hlen. split; [|split].
  - intros t Ht.
    pose proof (split_tokens (strip line)) as Htok.
    rewrite Forall_forall in Htok. destruct (Htok t Ht) as [Hne Hs].
    split; [now apply truthy_true|].
    split; [assumption|now apply strip_spaceless].
  - assert (Hlen' : length (fields_of (StrRow (strip line))) = 14%nat)
      by (simpl; now rewrite split_strip).
    destruct (extract_14 _ Hlen') as (f5 & f7 & H5 & H7 & Hex).
    simpl in Hex, H5, H7.
    rewrite split_required_fields_present in Hex
      by now rewrite split_strip.
    exists (strip f5), (strip f7). split; [assumption|].
    destruct (extract_some_trimmed _ _ _ Hex) as (_ & _ & Hd & Hp).
    split; now apply truthy_true.
  - destruct (text_step_cases protocols lookup_table line st)
      as [(_ & st' & Hst & _)|(_ & Hst)]; eauto.
Qed.

Lemma C10_text_extraction_succeeds_witness :
  let line := "2 123456789012 eni-0a1b2c3d 10.0.1.201 198.51.100.2 443 49153 6 25 20000 1620140761 1620140821 ACCEPT OK
" in
  exists dstport protocol_number,
    extract_dstport_protocol (StrRow (strip line))
      = Ok (Some (dstport, protocol_number)) /\
    dstport <> EmptyString /\ protocol_number <> EmptyString.
Proof.
  intros line.
  destruct (C10_text_extraction_succeeds sample_protocols sample_lookup
              line (∅, ∅)) as (_ & Hex & _).
  - vm_compute. discriminate.
  - reflexivity.
  - exact Hex.
Defined.

Example scenario_counts :
  process_flow_log_file sample_protocols sample_lookup
    (CsvLog [sample_fields "80" "6"; sample_fields "53" "17";
             ["13"; "fields"]; sample_fields "80" "6";
             sample_fields "443" "6"])
  = Ok ({["web" := 2; "dns" := 1; "Untagged" := 1]},
        {[("80", "tcp") := 2; ("53", "udp") := 1; ("443", "tcp") := 1]}).
Proof. vm_compute. reflexivity. Qed.


(** * Further properties *)

(** ** Helper lemmas *)

Section MoreTableFacts.

Lemma rules_for_snoc key rows r :
  rules_for key (rows ++ [r]) =
  (rules_for key rows ++
   (if bool_decide (rule_key r = key) then [r] else []))%list.
Proof. unfold rules_for. now rewrite List.filter_app. Qed.

Lemma load_lookup_table_last rows key :
  load_lookup_table rows !! key = rule_tag <$> last (rules_for key rows).
Proof.
  induction rows as [|r rows IH] using rev_ind; [reflexivity|].
  rewrite load_lookup_table_snoc, rules_for_snoc.
  fold (rule_key r). fold (rule_tag r).
  case_bool_decide as Hk.
  - subst key. rewrite lookup_insert_eq, last_snoc. reflexivity.
  - rewrite lookup_insert_ne by assumption. now rewrite app_nil_r.
Qed.

Lemma load_protocols_last rows decimal :
  load_protocols_from_csv rows !! decimal =
  row_Keyword <$> last (protocol_rows_for decimal rows).
Proof.
  induction rows as [|r rows IH] using rev_ind; [reflexivity|].
  rewrite load_protocols_snoc. unfold protocol_rows_for.
  rewrite List.filter_app. simpl.
  case_bool_decide as Hk.
  - subst decimal. rewrite lookup_insert_eq, last_snoc. reflexivity.
  - rewrite lookup_insert_ne by assumption. now rewrite app_nil_r.
Qed.


End MoreTableFacts.


Section KeyFacts.

Lemma strip_lstripped s : lstripped (strip s) = true.
Proof. apply rstrip_lstripped, lstrip_lstripped. Qed.

Lemma lookup_key_lstripped d p :
  lstripped (lookup_key d p) = lstripped d || negb (truthy d).
Proof.
  destruct d as [|c d]; simpl; [reflexivity|].
  now rewrite orb_false_r.
Qed.

Lemma rule_key_lstripped r : lstripped (rule_key r) = true.
Proof.
  unfold rule_key. rewrite lookup_key_lstripped, strip_lstripped.
  reflexivity.
Qed.

Lemma lookup_key_inj d1 p1 d2 p2 :
  colon_free d1 = true -> colon_free d2 = true ->
  lookup_key d1 p1 = lookup_key d2 p2 -> d1 = d2 /\ p1 = p2.
Proof.
  unfold colon_free, lookup_key. revert d2.
  induction d1 as [|c d1 IH]; intros [|c2 d2]; simpl.
  - intros _ _ Heq. injection Heq as Heq. now split.
  - intros _ [Hc _]%andb_prop Heq. injection Heq as Hc2 _.
    subst c2. discriminate.
  - intros [Hc _]%andb_prop _ Heq. injection Heq as Hc1 _.
    subst c. discriminate.
  - intros [_ H1]%andb_prop [_ H2]%andb_prop Heq.
    injection Heq as Hc Heq. subst c2.
    destruct (IH d2 H1 H2 Heq) as [Hd Hp]. subst. now split.
Qed.

End KeyFacts.

(** ** Reference tables, further *)

(** X1: the loaded tag table maps a key to the tag of the last row of the
    file that has this key (trimmed port, colon, lower-cased trimmed
    protocol), lower-cased and trimmed; a key that no row has is absent.  A
    later duplicate row overrides an earlier one. *)
Theorem X1_lookup_table_last_rule_wins
    (rows : list lookup_row) (key : string) :
  load_lookup_table rows !! key = rule_tag <$> last (rules_for key rows) /\
  (forall r : lookup_row,
     load_lookup_table (rows ++ [r]) !! rule_key r = Some (rule_tag r)).
Proof.
  split; [apply load_lookup_table_last|].
  intros r. rewrite load_lookup_table_last, rules_for_snoc.
  rewrite bool_decide_true by reflexivity. now rewrite last_snoc.
Qed.

(** X2: protocol resolution against a loaded registry returns the keyword
    of the last row whose [Decimal] column is exactly the queried string,
    stored verbatim (neither trimmed nor lower-cased), and ["Unassigned"]
    when no row has it. *)
Theorem X2_protocol_registry_last_row_wins
    (rows : list protocol_row) (protocol_number : string) :
  get_protcol_from_protocol_number protocol_number
    (load_protocols_from_csv rows) =
  match last (protocol_rows_for protocol_number rows) with
  | Some r => row_Keyword r
  | None => "Unassigned"
  end.
Proof.
  unfold get_protcol_from_protocol_number.
  rewrite load_protocols_last.
  now destruct (last (protocol_rows_for protocol_number rows)).
Qed.



(** X4: a port that starts with white space never matches a loaded rule:
    every stored key starts with a trimmed port, so resolution returns
    ["Untagged"] whatever the table and the protocol. *)
Theorem X4_leading_space_port_untagged
    (rows : list lookup_row) (dstport protocol : string) :
  lstripped dstport = false ->
  get_tag_from_lookup (load_lookup_table rows) dstport protocol = "Untagged".
Proof.
  intros Hport. apply get_tag_absent.
  rewrite load_lookup_table_last.
  assert (Hnone : rules_for (lookup_key dstport (lower protocol)) rows = []).
  { unfold rules_for. induction rows as [|r rows IH]; simpl; [reflexivity|].
    rewrite bool_decide_false; [assumption|].
    intros Hk. pose proof (rule_key_lstripped r) as Hr.
    rewrite Hk, lookup_key_lstripped, Hport in Hr.
    destruct dstport; discriminate. }
  now rewrite Hnone.
Qed.

Lemma X4_leading_space_port_untagged_witness :
  get_tag_from_lookup
    (load_lookup_table [LookupRow " 80" "tcp" "web"]) " 80" "tcp"
  = "Untagged".
Proof.
  apply (X4_leading_space_port_untagged
           [LookupRow " 80" "tcp" "web"] " 80" "tcp").
  reflexivity.
Defined.

(** X5: the composite key identifies the (port, protocol) pair as long as
    the ports hold no colon: two pairs with colon-free ports have the same
    key only when they are the same pair. *)
Theorem X5_lookup_key_injective (d1 p1 d2 p2 : string) :
  colon_free d1 = true -> colon_free d2 = true ->
  lookup_key d1 p1 = lookup_key d2 p2 -> d1 = d2 /\ p1 = p2.
Proof. apply lookup_key_inj. Qed.

Lemma X5_lookup_key_injective_witness :
  "80" = strip " 80 " /\ "tcp" = lower "TCP".
Proof.
  apply (X5_lookup_key_injective "80" "tcp" (strip " 80 ") (lower "TCP"));
    reflexivity.
Defined.


(** ** Extraction and the record loop, further *)

Section MoreDictFacts.
Context `{Countable K}.

Lemma add_count_add (m n : nat) (o : option Z) :
  add_count n (add_count m o) = add_count (m + n) o.
Proof.
  unfold add_count.
  destruct m as [|m], n as [|n]; simpl; try reflexivity.
  - now rewrite Nat.add_0_r.
  - f_equal. lia.
Qed.

Lemma lookup_bump (k t : K) (d : gmap K Z) :
  bump k d !! t = add_count (if bool_decide (k = t) then 1 else 0) (d !! t).
Proof.
  case_bool_decide as Hk.
  - subst t. rewrite lookup_bump_eq. reflexivity.
  - rewrite lookup_bump_ne by assumption. reflexivity.
Qed.

Lemma bump_comm (k1 k2 : K) (d : gmap K Z) :
  bump k1 (bump k2 d) = bump k2 (bump k1 d).
Proof.
  apply map_eq. intros t. rewrite !lookup_bump, !add_count_add.
  f_equal. lia.
Qed.

End MoreDictFacts.

Section MorePipelineFacts.

Variable protocols : gmap string string.
Variable lookup_table : gmap string string.

Local Abbreviation process_row := (process_row protocols lookup_table).
Local Abbreviation csv_step := (csv_step protocols lookup_table).
Local Abbreviation text_step := (text_step protocols lookup_table).

Lemma process_row_eq (row : raw_row) (st : counters) :
  process_row row st =
  if (length (fields_of row) <? 8)%nat then Raise IndexError
  else if required_fields_present (fields_of row)
       then Ok (counted protocols lookup_table (fields_of row) st)
       else Raise TypeError.
Proof.
  destruct st as [tc ppc].
  unfold process_row, extract_dstport_protocol, subscript,
    required_fields_present, counted, record_tag,
    record_port_protocol, record_dstport, record_protocol_name.
  destruct (length (fields_of row) <? 8)%nat eqn:Hlen.
  - apply Nat.ltb_lt in Hlen.
    destruct (fields_of row !! 5%nat) as [f5|] eqn:H5; simpl; [|reflexivity].
    rewrite (lookup_ge_None_2 (fields_of row) 7) by lia. reflexivity.
  - apply Nat.ltb_ge in Hlen.
    destruct (lookup_lt_is_Some_2 (fields_of row) 5) as [f5 H5]; [lia|].
    destruct (lookup_lt_is_Some_2 (fields_of row) 7) as [f7 H7]; [lia|].
    rewrite H5, H7. simpl.
    destruct (truthy (strip f5)) eqn:Hd, (truthy (strip f7)) eqn:Hp;
      simpl; try reflexivity.
    now rewrite Hd, Hp.
Qed.

Lemma counted_sums (fields : list string) (st : counters) :
  sum_values (counted protocols lookup_table fields st).1
    = sum_values st.1 + 1 /\
  sum_values (counted protocols lookup_table fields st).2
    = sum_values st.2 + 1.
Proof. unfold counted. simpl. now rewrite !sum_values_bump. Qed.

Lemma csv_step_eq (row : list string) (st : counters) :
  csv_step row st =
  if valid_fields row then Ok (counted protocols lookup_table row st)
  else if empty_required_field row then Raise TypeError
  else Ok st.
Proof.
  unfold csv_step, valid_fields, empty_required_field.
  destruct (length row =? 14)%nat eqn:Hlen; simpl; [|reflexivity].
  rewrite process_row_eq. simpl. apply Nat.eqb_eq in Hlen. rewrite Hlen.
  simpl. now destruct (required_fields_present row).
Qed.

Lemma text_step_csv (line : string) (st : counters) :
  text_step line st = csv_step (split line) st.
Proof.
  destruct (length (split line) =? 14)%nat eqn:Hlen.
  - pose proof Hlen as Hlen'. apply Nat.eqb_eq in Hlen'.
    destruct (text_step_14 protocols lookup_table line st Hlen') as [_ ->].
    unfold csv_step. rewrite Hlen. simpl.
    rewrite !process_row_eq. simpl.
    now rewrite split_strip.
  - apply Nat.eqb_neq in Hlen.
    rewrite text_step_skip, csv_step_skip by assumption. reflexivity.
Qed.

Lemma for_each_text_csv (lines : list string) (st : counters) :
  for_each text_step lines st = for_each csv_step (split <$> lines) st.
Proof.
  revert st. induction lines as [|line lines IH]; intros st; simpl;
    [reflexivity|].
  rewrite text_step_csv.
  destruct (csv_step (split line) st) as [st'|e]; simpl;
    [apply IH|reflexivity].
Qed.

Lemma process_as_csv (log : flow_log) :
  process_flow_log_file protocols lookup_table log =
  for_each csv_step (log_fields log) (∅, ∅).
Proof. destruct log as [rows|lines]; simpl; [reflexivity|]. apply for_each_text_csv. Qed.

Lemma tag_occurrences_cons (tag : string) (f : list string) records :
  tag_occurrences protocols lookup_table tag (f :: records) =
  ((if valid_fields f
       && bool_decide (record_tag protocols lookup_table f = tag)
    then 1 else 0)
   + tag_occurrences protocols lookup_table tag records)%nat.
Proof.
  unfold tag_occurrences. simpl.
  now destruct (valid_fields f && bool_decide _).
Qed.

Lemma port_protocol_occurrences_cons key (f : list string) records :
  port_protocol_occurrences protocols key (f :: records) =
  ((if valid_fields f
       && bool_decide (record_port_protocol protocols f = key)
    then 1 else 0)
   + port_protocol_occurrences protocols key records)%nat.
Proof.
  unfold port_protocol_occurrences. simpl.
  now destruct (valid_fields f && bool_decide _).
Qed.

(** The entries of both dictionaries once the loop has returned. *)
Lemma for_each_csv_entries (rows : list (list string)) :
  forall st st' : counters,
  for_each csv_step rows st = Ok st' ->
  (forall tag,
     st'.1 !! tag =
     add_count (tag_occurrences protocols lookup_table tag rows)
       (st.1 !! tag)) /\
  (forall key,
     st'.2 !! key =
     add_count (port_protocol_occurrences protocols key rows)
       (st.2 !! key)).
Proof.
  induction rows as [|row rows IH]; intros st st'; simpl.
  - intros [= <-]. split; reflexivity.
  - rewrite csv_step_eq.
    destruct (valid_fields row) eqn:Hv; simpl.
    + intros Hloop. destruct (IH _ _ Hloop) as [Htc Hppc].
      split.
      * intros tag. rewrite Htc, tag_occurrences_cons, Hv.
        unfold counted. simpl. now rewrite lookup_bump, add_count_add.
      * intros key. rewrite Hppc, port_protocol_occurrences_cons, Hv.
        unfold counted. simpl. now rewrite lookup_bump, add_count_add.
    + destruct (empty_required_field row); simpl; [discriminate|].
      intros Hloop. destruct (IH _ _ Hloop) as [Htc Hppc].
      split.
      * intros tag. now rewrite Htc, tag_occurrences_cons, Hv.
      * intros key. now rewrite Hppc, port_protocol_occurrences_cons, Hv.
Qed.

(** The loop raises exactly when a 14-field record lacks a required field. *)
Lemma for_each_csv_raises (rows : list (list string)) (st : counters) :
  Exists (fun row => empty_required_field row = true) rows ->
  for_each csv_step rows st = Raise TypeError.
Proof.
  intros Hex.
  pose proof (for_each_csv protocols lookup_table rows st) as Hloop.
  destruct (for_each csv_step rows st) as [st'|e].
  - destruct Hloop as (_ & _ & Hall). exfalso.
    apply Exists_exists in Hex as (row & Hin & Hrow).
    rewrite Forall_forall in Hall. specialize (Hall row Hin). congruence.
  - now destruct Hloop as [-> _].
Qed.

Lemma for_each_csv_returns (rows : list (list string)) (st : counters) :
  Forall (fun row => empty_required_field row = false) rows ->
  exists st', for_each csv_step rows st = Ok st'.
Proof.
  intros Hall.
  pose proof (for_each_csv protocols lookup_table rows st) as Hloop.
  destruct (for_each csv_step rows st) as [st'|e]; [eauto|].
  destruct Hloop as [_ Hex]. exfalso.
  apply Exists_exists in Hex as (row & Hin & Hrow).
  rewrite Forall_forall in Hall. specialize (Hall row Hin). congruence.
Qed.

End MorePipelineFacts.


Section CountingFacts.

Lemma filter_length_perm {A} (p : A -> bool) (l l' : list A) :
  l ≡ₚ l' -> length (List.filter p l) = length (List.filter p l').
Proof.
  induction 1 as [|x l l' _ IH|x y l|l l' l'' _ IH1 _ IH2]; simpl.
  - reflexivity.
  - destruct (p x); simpl; now rewrite IH.
  - destruct (p x), (p y); reflexivity.
  - now rewrite IH1.
Qed.

Lemma filter_length_le {A} (p q : A -> bool) (l : list A) :
  (forall x, p x = true -> q x = true) ->
  (length (List.filter p l) <= length (List.filter q l))%nat.
Proof.
  intros Hpq. induction l as [|x l IH]; simpl; [lia|].
  destruct (p x) eqn:Hp.
  - rewrite (Hpq x Hp). simpl. lia.
  - destruct (q x); simpl; lia.
Qed.

Lemma filter_length_pos {A} (p : A -> bool) (l : list A) :
  length (List.filter p l) <> 0%nat -> exists x, x ∈ l /\ p x = true.
Proof.
  induction l as [|x l IH]; simpl; [congruence|].
  destruct (p x) eqn:Hp.
  - intros _. exists x. split; [constructor|assumption].
  - intros Hl. destruct (IH Hl) as (y & Hy & Hpy).
    exists y. split; [now constructor|assumption].
Qed.

Lemma filter_fmap_length {A B} (f : A -> B) (p : B -> bool) (l : list A) :
  length (List.filter p (f <$> l)) =
  length (List.filter (fun x => p (f x)) l).
Proof.
  induction l as [|x l IH]; csimpl; [reflexivity|].
  destruct (p (f x)); csimpl; now rewrite IH.
Qed.

Lemma valid_records_fields (log : flow_log) :
  valid_records log = length (List.filter valid_fields (log_fields log)).
Proof.
  destruct log as [rows|lines]; unfold valid_records, log_fields;
    [reflexivity|].
  now rewrite filter_fmap_length.
Qed.

Lemma count_entry_Some (n : nat) (z : Z) :
  count_entry n = Some z -> n <> 0%nat /\ z = Z.of_nat n.
Proof.
  unfold count_entry. destruct n as [|n]; simpl; [discriminate|].
  intros [= <-]. split; [discriminate|reflexivity].
Qed.

Lemma get_tag_cases (lookup_table : gmap string string) dstport protocol :
  get_tag_from_lookup lookup_table dstport protocol = "Untagged" \/
  exists key,
    lookup_table !! key
    = Some (get_tag_from_lookup lookup_table dstport protocol).
Proof.
  unfold get_tag_from_lookup.
  destruct (lookup_table !! lookup_key dstport (lower protocol))
    as [tag|] eqn:Hk; [|now left].
  destruct (truthy tag); [|now left].
  right. eauto.
Qed.

End CountingFacts.

(** X6: [process_row] has three outcomes, decided by the fields alone:
    with fewer than 8 fields it raises [IndexError]; with a blank
    destination port or protocol number it raises [TypeError]; otherwise it
    adds one to the record's tag and one to its (port, lower-cased protocol
    name) pair.  It never returns the dictionaries unchanged: the test
    [if dstport and protocol_number] cannot fail. *)
Theorem X6_process_row_outcomes
    (protocols lookup_table : gmap string string)
    (row : raw_row) (st : counters) :
  process_row protocols lookup_table row st =
    (if (length (fields_of row) <? 8)%nat then Raise IndexError
     else if required_fields_present (fields_of row)
          then Ok (bump (record_tag protocols lookup_table (fields_of row))
                     st.1,
                   bump (record_port_protocol protocols (fields_of row))
                     st.2)
          else Raise TypeError) /\
  process_row protocols lookup_table row st <> Ok st.
Proof.
  split; [apply process_row_eq|].
  rewrite process_row_eq.
  destruct (length (fields_of row) <? 8)%nat; [discriminate|].
  destruct (required_fields_present (fields_of row)); [|discriminate].
  intros [= Heq].
  pose proof (counted_sums protocols lookup_table (fields_of row) st)
    as [Hsum _].
  rewrite Heq in Hsum. lia.
Qed.

(** X7: extraction raises [IndexError] exactly when the record has fewer
    than 8 fields; with 8 fields or more, whatever their number, it returns
    the trimmed fields 5 and 7, or [None] when one of them is blank. *)
Theorem X7_extract_outcomes (row : raw_row) :
  extract_dstport_protocol row =
  if (length (fields_of row) <? 8)%nat then Raise IndexError
  else Ok (if required_fields_present (fields_of row)
           then Some (strip (default EmptyString (fields_of row !! 5%nat)),
                      strip (default EmptyString (fields_of row !! 7%nat)))
           else None).
Proof.
  unfold extract_dstport_protocol, subscript, required_fields_present.
  destruct (length (fields_of row) <? 8)%nat eqn:Hlen.
  - apply Nat.ltb_lt in Hlen.
    destruct (fields_of row !! 5%nat) as [f5|] eqn:H5; simpl; [|reflexivity].
    rewrite (lookup_ge_None_2 (fields_of row) 7) by lia. reflexivity.
  - apply Nat.ltb_ge in Hlen.
    destruct (lookup_lt_is_Some_2 (fields_of row) 5) as [f5 H5]; [lia|].
    destruct (lookup_lt_is_Some_2 (fields_of row) 7) as [f7 H7]; [lia|].
    rewrite H5, H7. simpl.
    now destruct (truthy (strip f5)), (truthy (strip f7)).
Qed.

(** X8: a text log is processed exactly like the [.csv] log whose rows are
    the white-space tokens of its lines: same dictionaries, same outcome. *)
Theorem X8_text_log_as_csv
    (protocols lookup_table : gmap string string) (lines : list string) :
  process_flow_log_file protocols lookup_table (TextLog lines) =
  process_flow_log_file protocols lookup_table (CsvLog (split <$> lines)).
Proof. simpl. apply for_each_text_csv. Qed.

(** X9: the run raises [TypeError] exactly when some record has 14 fields
    and a blank destination port or protocol number, and returns the two
    dictionaries exactly when no record does; a text log always returns. *)
Theorem X9_run_aborts_iff
    (protocols lookup_table : gmap string string) (log : flow_log) :
  (process_flow_log_file protocols lookup_table log = Raise TypeError <->
   Exists (fun f => empty_required_field f = true) (log_fields log)) /\
  ((exists st, process_flow_log_file protocols lookup_table log = Ok st) <->
   Forall (fun f => empty_required_field f = false) (log_fields log)) /\
  (forall lines,
     exists st,
       process_flow_log_file protocols lookup_table (TextLog lines) = Ok st).
Proof.
  rewrite process_as_csv.
  pose proof (for_each_csv protocols lookup_table (log_fields log) (∅, ∅))
    as Hloop.
  split; [|split].
  - split.
    + intros Hr. rewrite Hr in Hloop. apply Hloop.
    + apply for_each_csv_raises.
  - split.
    + intros [st Hr]. rewrite Hr in Hloop. apply Hloop.
    + apply for_each_csv_returns.
  - intros lines.
    destruct (for_each_text protocols lookup_table lines (∅, ∅))
      as (st & Hst & _).
    eauto.
Qed.


Section ResultFacts.

Variable protocols : gmap string string.
Variable lookup_table : gmap string string.

Lemma run_entries (log : flow_log) (tc : tag_counts_t)
    (ppc : port_protocol_counts_t) :
  process_flow_log_file protocols lookup_table log = Ok (tc, ppc) ->
  (forall tag,
     tc !! tag =
     count_entry
       (tag_occurrences protocols lookup_table tag (log_fields log))) /\
  (forall key,
     ppc !! key =
     count_entry
       (port_protocol_occurrences protocols key (log_fields log))).
Proof.
  rewrite process_as_csv. intros Hrun.
  destruct (for_each_csv_entries protocols lookup_table _ _ _ Hrun)
    as [Htc Hppc].
  split.
  - intros tag. rewrite Htc. simpl. now rewrite lookup_empty.
  - intros key. rewrite Hppc. simpl. now rewrite lookup_empty.
Qed.

End ResultFacts.

(** X10: once the run has returned, [tag_counts] holds for every tag
    exactly the number of valid records that resolve to this tag, and no
    entry for a tag that no valid record resolves to;
    [port_protocol_counts] holds likewise the number of valid records of
    every (port, lower-cased protocol name) pair. *)
Theorem X10_counts_per_key
    (protocols lookup_table : gmap string string) (log : flow_log)
    (tag_counts : tag_counts_t)
    (port_protocol_counts : port_protocol_counts_t) :
  process_flow_log_file protocols lookup_table log
    = Ok (tag_counts, port_protocol_counts) ->
  (forall tag,
     tag_counts !! tag =
     count_entry
       (tag_occurrences protocols lookup_table tag (log_fields log))) /\
  (forall key,
     port_protocol_counts !! key =
     count_entry
       (port_protocol_occurrences protocols key (log_fields log))).
Proof. apply run_entries. Qed.

Lemma X10_counts_per_key_witness :
  let log :=
    TextLog ["2 1 eni 10.0.0.1 10.0.0.2 80 49153 6 25 20000 1 2 ACCEPT OK";
             "";
             "2 1 eni 10.0.0.1 10.0.0.2 53 49153 17 25 20000 1 2 ACCEPT OK";
             "2 1 eni 10.0.0.1 10.0.0.2 80 49153 6 25 20000 1 2 REJECT OK";
             "short line"] in
  let tag_counts : tag_counts_t := {["web" := 2; "dns" := 1]} in
  tag_counts !! "web" =
    count_entry
      (tag_occurrences sample_protocols sample_lookup "web" (log_fields log))
  /\ tag_counts !! "Untagged" =
    count_entry
      (tag_occurrences sample_protocols sample_lookup "Untagged"
         (log_fields log)).
Proof.
  intros log tag_counts.
  destruct (X10_counts_per_key sample_protocols sample_lookup log tag_counts
              {[("80", "tcp") := 2; ("53", "udp") := 1]}) as [Htc _].
  - vm_compute. reflexivity.
  - split; apply Htc.
Defined.

(** X11: the result does not depend on the order of the records: two flow
    logs whose records are a permutation of one another give the same
    dictionaries, or both raise. *)
Theorem X11_record_order_irrelevant
    (protocols lookup_table : gmap string string) (log1 log2 : flow_log) :
  log_fields log1 ≡ₚ log_fields log2 ->
  process_flow_log_file protocols lookup_table log1 =
  process_flow_log_file protocols lookup_table log2.
Proof.
  intros Hperm. rewrite !process_as_csv.
  pose proof (for_each_csv protocols lookup_table (log_fields log1) (∅, ∅))
    as Hloop1.
  destruct (for_each _ (log_fields log1) _) as [[tc1 ppc1]|e1] eqn:Hrun1.
  - destruct Hloop1 as (_ & _ & Hall).
    rewrite Hperm in Hall.
    destruct (for_each_csv_returns protocols lookup_table _ (∅, ∅) Hall)
      as ([tc2 ppc2] & Hrun2).
    rewrite Hrun2.
    destruct (for_each_csv_entries protocols lookup_table _ _ _ Hrun1)
      as [Htc1 Hppc1].
    destruct (for_each_csv_entries protocols lookup_table _ _ _ Hrun2)
      as [Htc2 Hppc2].
    simpl in *. f_equal. f_equal.
    + apply map_eq. intros tag. rewrite Htc1, Htc2.
      unfold tag_occurrences. now rewrite (filter_length_perm _ _ _ Hperm).
    + apply map_eq. intros key. rewrite Hppc1, Hppc2.
      unfold port_protocol_occurrences.
      now rewrite (filter_length_perm _ _ _ Hperm).
  - destruct Hloop1 as [-> Hex]. rewrite Hperm in Hex.
    now rewrite (for_each_csv_raises protocols lookup_table _ _ Hex).
Qed.

Lemma X11_record_order_irrelevant_witness :
  process_flow_log_file sample_protocols sample_lookup
    (CsvLog [sample_fields "80" "6"; sample_fields "53" "17"]) =
  process_flow_log_file sample_protocols sample_lookup
    (CsvLog [sample_fields "53" "17"; sample_fields "80" "6"]).
Proof.
  apply (X11_record_order_irrelevant sample_protocols sample_lookup
           (CsvLog [sample_fields "80" "6"; sample_fields "53" "17"])
           (CsvLog [sample_fields "53" "17"; sample_fields "80" "6"])).
  simpl. apply perm_swap.
Defined.

(** X12: records whose field count is not 14 can be dropped from the log
    without changing the result, in both modes. *)
Theorem X12_wrong_count_records_droppable
    (protocols lookup_table : gmap string string) :
  (forall rows,
     process_flow_log_file protocols lookup_table (CsvLog rows) =
     process_flow_log_file protocols lookup_table
       (CsvLog (List.filter (fun r => (length r =? 14)%nat) rows))) /\
  (forall lines,
     process_flow_log_file protocols lookup_table (TextLog lines) =
     process_flow_log_file protocols lookup_table
       (TextLog
          (List.filter (fun l => (length (split l) =? 14)%nat) lines))).
Proof.
  split.
  - intros rows. simpl. generalize ((∅, ∅) : counters) as st.
    induction rows as [|row rows IH]; intros st; simpl; [reflexivity|].
    destruct (length row =? 14)%nat eqn:Hlen; simpl.
    + destruct (csv_step protocols lookup_table row st) as [st'|e]; simpl;
        [apply IH|reflexivity].
    + rewrite csv_step_skip by now apply Nat.eqb_neq. apply IH.
  - intros lines. simpl. generalize ((∅, ∅) : counters) as st.
    induction lines as [|line lines IH]; intros st; simpl; [reflexivity|].
    destruct (length (split line) =? 14)%nat eqn:Hlen; simpl.
    + destruct (text_step protocols lookup_table line st) as [st'|e]; simpl;
        [apply IH|reflexivity].
    + rewrite text_step_skip by now apply Nat.eqb_neq. apply IH.
Qed.

(** X13: once the run has returned, every count stored in either
    dictionary is at least 1 and at most the number of valid records; every
    tag counted is ["Untagged"] or a tag stored in the lookup table; every
    pair counted has a non-empty, trimmed port and a lower-case protocol
    name. *)
Theorem X13_result_invariants
    (protocols lookup_table : gmap string string) (log : flow_log)
    (tag_counts : tag_counts_t)
    (port_protocol_counts : port_protocol_counts_t) :
  process_flow_log_file protocols lookup_table log
    = Ok (tag_counts, port_protocol_counts) ->
  (forall tag n,
     tag_counts !! tag = Some n ->
     1 <= n <= Z.of_nat (valid_records log) /\
     (tag = "Untagged" \/ exists key, lookup_table !! key = Some tag)) /\
  (forall dstport protocol n,
     port_protocol_counts !! (dstport, protocol) = Some n ->
     1 <= n <= Z.of_nat (valid_records log) /\
     dstport <> EmptyString /\ strip dstport = dstport /\
     lower protocol = protocol).
Proof.
  intros Hrun.
  destruct (run_entries protocols lookup_table log _ _ Hrun)
    as [Htc Hppc].
  rewrite valid_records_fields.
  split.
  - intros tag n Hn. rewrite Htc in Hn.
    apply count_entry_Some in Hn as [Hpos ->].
    split.
    + split; [lia|]. apply Nat2Z.inj_le. unfold tag_occurrences.
      apply filter_length_le. now intros f [Hv _]%andb_prop.
    + apply filter_length_pos in Hpos as (f & _ & [_ Hf]%andb_prop).
      apply bool_decide_eq_true in Hf. subst tag. apply get_tag_cases.
  - intros dstport protocol n Hn. rewrite Hppc in Hn.
    apply count_entry_Some in Hn as [Hpos ->].
    split.
    + split; [lia|]. apply Nat2Z.inj_le. unfold port_protocol_occurrences.
      apply filter_length_le. now intros f [Hv _]%andb_prop.
    + apply filter_length_pos in Hpos as (f & _ & [Hv Hf]%andb_prop).
      apply bool_decide_eq_true in Hf.
      unfold record_port_protocol, record_dstport in Hf.
      injection Hf as <- <-.
      unfold valid_fields in Hv. apply andb_prop in Hv as [_ Hreq].
      unfold required_fields_present in Hreq.
      destruct (f !! 5%nat) as [f5|]; [|discriminate].
      destruct (f !! 7%nat) as [f7|]; [|discriminate].
      apply andb_prop in Hreq as [Hd _]. simpl.
      split; [now apply truthy_true|].
      split; [apply strip_idemp|apply lower_idemp].
Qed.

Lemma X13_result_invariants_witness :
  let log := CsvLog [sample_fields " 80 " "6"; sample_fields "443" "99"] in
  let tag_counts : tag_counts_t := {["web" := 1; "Untagged" := 1]} in
  let port_protocol_counts : port_protocol_counts_t :=
    {[("80", "tcp") := 1; ("443", "unassigned") := 1]} in
  (1 <= 1 <= Z.of_nat (valid_records log) /\
   ("web" = "Untagged" \/ exists key, sample_lookup !! key = Some "web")) /\
  (1 <= 1 <= Z.of_nat (valid_records log) /\
   "443" <> EmptyString /\ strip "443" = "443" /\
   lower "unassigned" = "unassigned").
Proof.
  intros log tag_counts port_protocol_counts.
  destruct (X13_result_invariants sample_protocols sample_lookup log
              tag_counts port_protocol_counts) as [Htc Hppc].
  - vm_compute. reflexivity.
  - split.
    + apply (Htc "web" 1). reflexivity.
    + apply (Hppc "443" "unassigned" 1). reflexivity.
Defined.


(** ** The ordered run and the writers *)

Section OrderedDictFacts.
Context `{Countable K}.

Lemma get_list_to_map {V} (k : K) (d : list (K * V)) :
  Ordered.get k d = (list_to_map d : gmap K V) !! k.
Proof.
  induction d as [|[k' v] d IH]; simpl; [now rewrite lookup_empty|].
  destruct (decide (k = k')) as [->|Hk].
  - now rewrite lookup_insert_eq.
  - now rewrite lookup_insert_ne by congruence.
Qed.

Lemma set_list_to_map {V} (k : K) (v : V) (d : list (K * V)) :
  (list_to_map (Ordered.set k v d) : gmap K V) = <[k := v]> (list_to_map d).
Proof.
  induction d as [|[k' v'] d IH]; simpl; [reflexivity|].
  destruct (decide (k = k')) as [->|Hk]; simpl.
  - now rewrite insert_insert_eq.
  - rewrite IH. now apply insert_insert_ne.
Qed.

Lemma bump_list_to_map (k : K) (d : list (K * Z)) :
  (list_to_map (Ordered.bump k d) : gmap K Z) = bump k (list_to_map d).
Proof.
  unfold Ordered.bump, bump. now rewrite set_list_to_map, get_list_to_map.
Qed.

Lemma set_keys {V} (k : K) (v : V) (d : list (K * V)) :
  (Ordered.set k v d).*1 = note_key d.*1 k.
Proof.
  unfold note_key.
  induction d as [|[k' v'] d IH]; csimpl; [reflexivity|].
  destruct (decide (k = k')) as [->|Hk]; csimpl.
  - rewrite bool_decide_true by constructor. reflexivity.
  - rewrite IH. case_bool_decide as Hin.
    + rewrite bool_decide_true by now constructor. reflexivity.
    + rewrite bool_decide_false; [reflexivity|].
      intros [?|?]%elem_of_cons; congruence.
Qed.

Lemma note_key_NoDup (seen : list K) (x : K) :
  NoDup seen -> NoDup (note_key seen x).
Proof.
  intros Hnd. unfold note_key. case_bool_decide as Hin; [assumption|].
  apply NoDup_app. split; [assumption|].
  split; [|apply NoDup_singleton].
  intros y Hy ->%list_elem_of_singleton. contradiction.
Qed.

Lemma first_seen_from_NoDup (l seen : list K) :
  NoDup seen -> NoDup (fold_left note_key l seen).
Proof.
  revert seen. induction l as [|x l IH]; intros seen Hnd; simpl;
    [assumption|].
  now apply IH, note_key_NoDup.
Qed.

Lemma items_from_keys {V} (f : K -> V) (d : list (K * V)) :
  (forall k v, (k, v) ∈ d -> f k = v) ->
  d = (fun k => (k, f k)) <$> d.*1.
Proof.
  induction d as [|[k v] d IH]; intros Hf; csimpl; [reflexivity|].
  rewrite (Hf k v) by constructor.
  f_equal. apply IH. intros k' v' Hin. apply Hf. now constructor.
Qed.

End OrderedDictFacts.


Section OrderedPipelineFacts.

Variable protocols : gmap string string.
Variable lookup_table : gmap string string.

Lemma ordered_process_row_eq (row : raw_row) (st : Ordered.counters) :
  Ordered.process_row protocols lookup_table row st =
  if (length (fields_of row) <? 8)%nat then Raise IndexError
  else if required_fields_present (fields_of row)
       then Ok (Ordered.bump
                  (record_tag protocols lookup_table (fields_of row)) st.1,
                Ordered.bump
                  (record_port_protocol protocols (fields_of row)) st.2)
       else Raise TypeError.
Proof.
  destruct st as [tc ppc].
  unfold Ordered.process_row, extract_dstport_protocol, subscript,
    required_fields_present, record_tag, record_port_protocol,
    record_dstport, record_protocol_name.
  destruct (length (fields_of row) <? 8)%nat eqn:Hlen.
  - apply Nat.ltb_lt in Hlen.
    destruct (fields_of row !! 5%nat) as [f5|] eqn:H5; simpl; [|reflexivity].
    rewrite (lookup_ge_None_2 (fields_of row) 7) by lia. reflexivity.
  - apply Nat.ltb_ge in Hlen.
    destruct (lookup_lt_is_Some_2 (fields_of row) 5) as [f5 H5]; [lia|].
    destruct (lookup_lt_is_Some_2 (fields_of row) 7) as [f7 H7]; [lia|].
    rewrite H5, H7. simpl.
    destruct (truthy (strip f5)) eqn:Hd, (truthy (strip f7)) eqn:Hp;
      simpl; try reflexivity.
    now rewrite Hd, Hp.
Qed.

Lemma ordered_csv_step_eq (row : list string) (st : Ordered.counters) :
  Ordered.csv_step protocols lookup_table row st =
  if valid_fields row
  then Ok (Ordered.bump (record_tag protocols lookup_table row) st.1,
           Ordered.bump (record_port_protocol protocols row) st.2)
  else if empty_required_field row then Raise TypeError
  else Ok st.
Proof.
  unfold Ordered.csv_step, valid_fields, empty_required_field.
  destruct (length row =? 14)%nat eqn:Hlen; simpl; [|reflexivity].
  rewrite ordered_process_row_eq. simpl.
  apply Nat.eqb_eq in Hlen. rewrite Hlen.
  simpl. now destruct (required_fields_present row).
Qed.

Lemma ordered_text_step_csv (line : string) (st : Ordered.counters) :
  Ordered.text_step protocols lookup_table line st =
  Ordered.csv_step protocols lookup_table (split line) st.
Proof.
  unfold Ordered.text_step, Ordered.csv_step. rewrite split_strip.
  destruct (length (split line) =? 14)%nat eqn:Hlen; simpl.
  - apply Nat.eqb_eq in Hlen.
    destruct (text_step_14 protocols lookup_table line (∅, ∅) Hlen)
      as [-> _].
    simpl. rewrite !ordered_process_row_eq. simpl. now rewrite split_strip.
  - now rewrite orb_true_r.
Qed.

Lemma ordered_process_as_csv (log : flow_log) :
  Ordered.process_flow_log_file protocols lookup_table log =
  Ordered.for_each (Ordered.csv_step protocols lookup_table)
    (log_fields log) ([], []).
Proof.
  destruct log as [rows|lines]; simpl; [reflexivity|].
  generalize (([], []) : Ordered.counters) as st.
  induction lines as [|line lines IH]; intros st; csimpl; [reflexivity|].
  rewrite ordered_text_step_csv.
  destruct (Ordered.csv_step _ _ (split line) st) as [st'|e]; simpl;
    [apply IH|reflexivity].
Qed.

(** The ordered loop and the loop over maps run in lock step. *)
Lemma ordered_for_each_contents (rows : list (list string)) :
  forall st : Ordered.counters,
  for_each (csv_step protocols lookup_table) rows (Ordered.contents st) =
  match Ordered.for_each (Ordered.csv_step protocols lookup_table) rows st
  with
  | Ok st' => Ok (Ordered.contents st')
  | Raise e => Raise e
  end.
Proof.
  induction rows as [|row rows IH]; intros st; simpl; [reflexivity|].
  rewrite csv_step_eq, ordered_csv_step_eq.
  destruct (valid_fields row); simpl.
  - rewrite <- IH. unfold counted, Ordered.contents. simpl.
    now rewrite !bump_list_to_map.
  - destruct (empty_required_field row); simpl; [reflexivity|apply IH].
Qed.

(** The keys of both dictionaries once the ordered loop has returned. *)
Lemma ordered_for_each_keys (rows : list (list string)) :
  forall st st' : Ordered.counters,
  Ordered.for_each (Ordered.csv_step protocols lookup_table) rows st
    = Ok st' ->
  st'.1.*1 =
    fold_left note_key
      (record_tag protocols lookup_table <$> List.filter valid_fields rows)
      st.1.*1 /\
  st'.2.*1 =
    fold_left note_key
      (record_port_protocol protocols <$> List.filter valid_fields rows)
      st.2.*1.
Proof.
  induction rows as [|row rows IH]; intros st st'; simpl.
  - intros [= <-]. split; reflexivity.
  - rewrite ordered_csv_step_eq.
    destruct (valid_fields row); simpl.
    + intros Hloop. destruct (IH _ _ Hloop) as [Htc Hppc].
      simpl in Htc, Hppc. unfold Ordered.bump in Htc, Hppc.
      rewrite set_keys in Htc. rewrite set_keys in Hppc.
      csimpl. now split.
    + destruct (empty_required_field row); simpl; [discriminate|].
      apply IH.
Qed.

(** The ordered dictionaries once the run has returned. *)
Lemma ordered_run_items (log : flow_log) (tc : list (string * Z))
    (ppc : list ((string * string) * Z)) :
  Ordered.process_flow_log_file protocols lookup_table log = Ok (tc, ppc) ->
  let records := List.filter valid_fields (log_fields log) in
  tc = (fun tag =>
          (tag, Z.of_nat (tag_occurrences protocols lookup_table tag
                            (log_fields log))))
       <$> first_seen (record_tag protocols lookup_table <$> records) /\
  ppc = (fun key =>
           (key, Z.of_nat (port_protocol_occurrences protocols key
                             (log_fields log))))
        <$> first_seen (record_port_protocol protocols <$> records).
Proof.
  rewrite ordered_process_as_csv. intros Hrun records.
  destruct (ordered_for_each_keys _ _ _ Hrun) as [Hktc Hkppc].
  simpl in Hktc, Hkppc. fold records in Hktc, Hkppc.
  pose proof (ordered_for_each_contents (log_fields log) ([], [])) as Hmap.
  rewrite Hrun in Hmap.
  destruct (for_each_csv_entries protocols lookup_table _ _ _ Hmap)
    as [Htc Hppc].
  simpl in Htc, Hppc.
  unfold first_seen. rewrite <- Hktc, <- Hkppc.
  assert (Hnd1 : NoDup tc.*1).
  { rewrite Hktc. apply first_seen_from_NoDup. constructor. }
  assert (Hnd2 : NoDup ppc.*1).
  { rewrite Hkppc. apply first_seen_from_NoDup. constructor. }
  split; apply items_from_keys.
  - intros tag v Hin.
    apply (elem_of_list_to_map_1 (M := gmap string)) in Hin; [|assumption].
    rewrite Htc, lookup_empty in Hin.
    apply count_entry_Some in Hin as [_ ->]. reflexivity.
  - intros key v Hin.
    apply (elem_of_list_to_map_1 (M := gmap (string * string))) in Hin;
      [|assumption].
    rewrite Hppc, lookup_empty in Hin.
    apply count_entry_Some in Hin as [_ ->]. reflexivity.
Qed.

End OrderedPipelineFacts.


Section WriterFacts.

Lemma tag_row_inj (x y : string * Z) :
  (let '(tag, count) := x in [tag; pretty count]) =
  (let '(tag, count) := y in [tag; pretty count]) -> x = y.
Proof.
  destruct x as [t1 c1], y as [t2 c2]. intros Heq.
  injection Heq as -> Hc. apply (inj pretty) in Hc. now subst.
Qed.

Lemma port_protocol_row_inj (x y : (string * string) * Z) :
  (let '((d, p), count) := x in [d; p; pretty count]) =
  (let '((d, p), count) := y in [d; p; pretty count]) -> x = y.
Proof.
  destruct x as [[d1 p1] c1], y as [[d2 p2] c2]. intros Heq.
  injection Heq as -> -> Hc. apply (inj pretty) in Hc. now subst.
Qed.

Lemma fmap_eq_inj {A B} (f : A -> B) (l1 l2 : list A) :
  (forall x y, f x = f y -> x = y) -> f <$> l1 = f <$> l2 -> l1 = l2.
Proof.
  intros Hf. revert l2.
  induction l1 as [|x l1 IH]; intros [|y l2]; csimpl; try discriminate.
  - reflexivity.
  - intros Heq. injection Heq as Hxy Hl.
    f_equal; [now apply Hf|now apply IH].
Qed.

Lemma ordered_text_run_returns
    (protocols lookup_table : gmap string string) (lines : list string) :
  exists st,
    Ordered.process_flow_log_file protocols lookup_table (TextLog lines)
    = Ok st.
Proof.
  destruct (for_each_text protocols lookup_table lines (∅, ∅))
    as (st & Hst & _).
  rewrite for_each_text_csv in Hst.
  pose proof (ordered_for_each_contents protocols lookup_table
                (split <$> lines) ([], [])) as Hmap.
  change (Ordered.contents ([], [])) with ((∅, ∅) : counters) in Hmap.
  rewrite Hst in Hmap.
  rewrite ordered_process_as_csv. simpl.
  destruct (Ordered.for_each _ (split <$> lines) _) as [st'|e];
    [eauto|discriminate].
Qed.

End WriterFacts.

(** X14: once the run has returned, the items of [tag_counts] in
    insertion order are the tags of the valid records in the order in which
    each tag first occurs, each with the number of valid records that
    resolve to it; likewise [port_protocol_counts] for the
    (port, lower-cased protocol name) pairs. *)
Theorem X14_items_in_first_seen_order
    (protocols lookup_table : gmap string string) (log : flow_log)
    (tag_counts : list (string * Z))
    (port_protocol_counts : list ((string * string) * Z)) :
  Ordered.process_flow_log_file protocols lookup_table log
    = Ok (tag_counts, port_protocol_counts) ->
  let records := List.filter valid_fields (log_fields log) in
  tag_counts =
    (fun tag =>
       (tag, Z.of_nat (tag_occurrences protocols lookup_table tag
                         (log_fields log))))
    <$> first_seen (record_tag protocols lookup_table <$> records) /\
  port_protocol_counts =
    (fun key =>
       (key, Z.of_nat (port_protocol_occurrences protocols key
                         (log_fields log))))
    <$> first_seen (record_port_protocol protocols <$> records).
Proof. apply ordered_run_items. Qed.

Lemma X14_items_in_first_seen_order_witness :
  let log :=
    CsvLog [sample_fields "443" "6"; sample_fields "80" "6";
            ["too"; "short"]; sample_fields "53" "17";
            sample_fields "80" "6"] in
  let records := List.filter valid_fields (log_fields log) in
  [("Untagged", 1); ("web", 2); ("dns", 1)] =
    (fun tag =>
       (tag, Z.of_nat (tag_occurrences sample_protocols sample_lookup tag
                         (log_fields log))))
    <$> first_seen (record_tag sample_protocols sample_lookup <$> records).
Proof.
  intros log records.
  destruct (X14_items_in_first_seen_order sample_protocols sample_lookup log
              [("Untagged", 1); ("web", 2); ("dns", 1)]
              [(("443", "tcp"), 1); (("80", "tcp"), 2); (("53", "udp"), 1)])
    as [Htc _].
  - vm_compute. reflexivity.
  - exact Htc.
Defined.

(** X15: once the two reference tables have been loaded and hold strings
    (every row of both files had all its columns), the [__main__] block
    returns whatever the lines of [flow_logs.txt] are.  [tag_counts.csv]
    receives the header row [Tag,Count] and then one row per tag, in the
    order in which the tags first occur among the valid records, with the
    number of valid records of the tag in decimal;
    [port_protocol_counts.csv] receives the header row
    [Port,Protocol,Count] and one row per pair in the same way. *)
Theorem X15_program_output
    (protocols lookup_table : gmap string string)
    (flow_logs : list string) :
  let records := List.filter valid_fields (split <$> flow_logs) in
  Ordered.main protocols lookup_table flow_logs =
  Ok (["Tag"; "Count"]
      :: ((fun tag =>
             [tag;
              pretty (Z.of_nat (tag_occurrences protocols lookup_table tag
                                  (split <$> flow_logs)))])
          <$> first_seen (record_tag protocols lookup_table <$> records)),
      ["Port"; "Protocol"; "Count"]
      :: ((fun key =>
             [key.1; key.2;
              pretty (Z.of_nat (port_protocol_occurrences protocols key
                                  (split <$> flow_logs)))])
          <$> first_seen (record_port_protocol protocols <$> records))).
Proof.
  intros records. unfold Ordered.main.
  destruct (ordered_text_run_returns protocols lookup_table flow_logs)
    as ([tc ppc] & Hrun).
  rewrite Hrun. simpl.
  destruct (ordered_run_items protocols lookup_table _ _ _ Hrun)
    as [Htc Hppc].
  simpl in Htc, Hppc. fold records in Htc, Hppc.
  unfold Ordered.write_tag_counts_to_csv,
    Ordered.write_port_protocol_counts_to_csv.
  rewrite Htc, Hppc, <- !list_fmap_compose.
  f_equal. f_equal. f_equal.
  apply list_fmap_ext. now intros i [d p] _.
Qed.

(** X16: each writer writes the header and then exactly one row per item,
    and the rows determine the dictionary: two dictionaries with the same
    written rows have the same items in the same order. *)
Theorem X16_writers_lose_nothing :
  (forall d1 d2 : list (string * Z),
     Ordered.write_tag_counts_to_csv d1 = Ordered.write_tag_counts_to_csv d2
     -> d1 = d2) /\
  (forall d1 d2 : list ((string * string) * Z),
     Ordered.write_port_protocol_counts_to_csv d1
     = Ordered.write_port_protocol_counts_to_csv d2 -> d1 = d2) /\
  (forall d : list (string * Z),
     length (Ordered.write_tag_counts_to_csv d) = S (length d)) /\
  (forall d : list ((string * string) * Z),
     length (Ordered.write_port_protocol_counts_to_csv d) = S (length d)).
Proof.
  unfold Ordered.write_tag_counts_to_csv,
    Ordered.write_port_protocol_counts_to_csv.
  split; [|split; [|split]].
  - intros d1 d2 Heq. injection Heq as Heq.
    eapply fmap_eq_inj; [|exact Heq]. apply tag_row_inj.
  - intros d1 d2 Heq. injection Heq as Heq.
    eapply fmap_eq_inj; [|exact Heq]. apply port_protocol_row_inj.
  - intros d. simpl. now rewrite length_fmap.
  - intros d. simpl. now rewrite length_fmap.
Qed.

Lemma X16_writers_lose_nothing_witness :
  [("web", 2); ("dns", 1)] = [("web", 2); ("dns", 1)].
Proof.
  destruct X16_writers_lose_nothing as [Htag _].
  apply (Htag [("web", 2); ("dns", 1)] [("web", 2); ("dns", 1)]).
  reflexivity.
Defined.

(** X17: the dictionaries with insertion order hold the same entries as the
    dictionaries without it: both embeddings of the run raise on the same
    logs with the same exception, and when they return, every key has the
    same count in both. *)
Theorem X17_order_does_not_change_counts
    (protocols lookup_table : gmap string string) (log : flow_log) :
  process_flow_log_file protocols lookup_table log =
  match Ordered.process_flow_log_file protocols lookup_table log with
  | Ok (tag_counts, port_protocol_counts) =>
      Ok (list_to_map tag_counts, list_to_map port_protocol_counts)
  | Raise e => Raise e
  end.
Proof.
  rewrite process_as_csv, ordered_process_as_csv.
  pose proof (ordered_for_each_contents protocols lookup_table
                (log_fields log) ([], [])) as Hmap.
  change (Ordered.contents ([], [])) with ((∅, ∅) : counters) in Hmap.
  rewrite Hmap.
  now destruct (Ordered.for_each _ (log_fields log) _) as [[tc ppc]|e].
Qed.
